(** * netdata MultiChain plugin: a shallow embedding of [multichain.node.js]

    The plugin is a JavaScript module.  Its data are dynamically typed JSON
    values, its functions throw, mutate a module-wide chart cache and call
    into the netdata host ([service.chart], [service.begin], ...).  The
    embedding keeps all three aspects explicit:

    - JSON values are the inductive type [value];
    - a thrown exception is the [Throw] outcome of a computation;
    - the chart cache, the calls made on the host and the log lines are
      fields of a [world] that every effectful function threads through.

    Numbers are the integer-valued doubles, the two infinities and [NaN]:
    [Int z] is the number JavaScript reads the integer literal [z] as, [z]
    itself up to 2^53 and the nearest double beyond, and arithmetic rounds
    as IEEE 754 does.  Fractions are outside the model, and -0 is not told
    from 0. *)

From stdpp Require Import base numbers strings list gmap pretty.

Open Scope Z_scope.
Open Scope string_scope.

(** ** JavaScript values *)

#[local] Set Warnings "-register-all".

Inductive number :=
| Int (z : Z)
| NaN
| Infinity (negative : bool).

Inductive value :=
| VUndefined
| VNull
| VBool (b : bool)
| VNum (n : number)
| VStr (s : string)
| VArr (elems : list value)
| VObj (props : list (string * value))
| VFun (fname : string)               (* a built-in function object *)
| VErr (ename : string) (msg : string). (* an Error instance *)

(** Outcome of evaluating a piece of JavaScript: a value, or a thrown one. *)
Inductive result (A : Type) :=
| Ok (a : A)
| Throw (e : value).
Arguments Ok {A} a.
Arguments Throw {A} e.

Definition TypeError (msg : string) : value := VErr "TypeError" msg.

(** [typeof v] *)
Definition typeof (v : value) : string :=
  match v with
  | VUndefined => "undefined"
  | VNull | VArr _ | VObj _ | VErr _ _ => "object"
  | VBool _ => "boolean"
  | VNum _ => "number"
  | VStr _ => "string"
  | VFun _ => "function"
  end.

(** Truthiness, as tested by [if (v)] and [v || w]. *)
Definition ToBoolean (v : value) : bool :=
  match v with
  | VUndefined | VNull => false
  | VBool b => b
  | VNum (Int z) => negb (Z.eqb z 0)
  | VNum NaN => false
  | VNum (Infinity _) => true
  | VStr s => negb (String.eqb s "")
  | VArr _ | VObj _ | VFun _ | VErr _ _ => true
  end.

Definition number_to_string (n : number) : string :=
  match n with
  | Int z => pretty z
  | NaN => "NaN"
  | Infinity false => "Infinity"
  | Infinity true => "-Infinity"
  end.

(** [String(v)], the conversion a template literal applies to [${v}], for
    the values JavaScript can convert: primitives, arrays of them, and
    objects without a [toString] property of their own (see
    [unconvertible] below); integers are printed in full, as JavaScript
    does below 10^21. *)
Fixpoint ToString (v : value) : string :=
  match v with
  | VUndefined => "undefined"
  | VNull => "null"
  | VBool true => "true"
  | VBool false => "false"
  | VNum n => number_to_string n
  | VStr s => s
  | VArr elems =>
      String.concat ","
        (map (fun e => match e with
                       | VUndefined | VNull => ""
                       | _ => ToString e
                       end) elems)
  | VObj _ => "[object Object]"
  | VFun f => "function " +:+ f +:+ "() { [native code] }"
  | VErr n m =>
      if String.eqb m "" then n
      else if String.eqb n "" then m
      else n +:+ ": " +:+ m
  end.

Fixpoint assoc (k : string) (props : list (string * value)) : value :=
  match props with
  | [] => VUndefined
  | (k', v) :: rest => if String.eqb k k' then v else assoc k rest
  end.

(** [o.k] / [o[k]].  Reading a property of [undefined] or [null] throws.
    The program reads only the names blocks, connections, memSize,
    memBytes, streams, subscribed, items, confirmed, keys, name, result,
    size, bytes, body, servers, update_every, updateEvery, hostname, port,
    username, password, chain, path and message; none of them is inherited
    from the prototype of a plain object, a string, a number or a boolean,
    and of the array prototype only [keys] is. *)
Definition get (o : value) (k : string) : result value :=
  match o with
  | VUndefined =>
      Throw (TypeError ("Cannot read property '" +:+ k +:+ "' of undefined"))
  | VNull =>
      Throw (TypeError ("Cannot read property '" +:+ k +:+ "' of null"))
  | VObj props => Ok (assoc k props)
  | VArr elems =>
      if String.eqb k "length" then Ok (VNum (Int (Z.of_nat (length elems))))
      else if String.eqb k "keys" then Ok (VFun "keys")
      else Ok VUndefined
  | VStr s =>
      if String.eqb k "length" then Ok (VNum (Int (Z.of_nat (String.length s))))
      else Ok VUndefined
  | VErr n m =>
      if String.eqb k "message" then Ok (VStr m)
      else if String.eqb k "name" then Ok (VStr n)
      else Ok VUndefined
  | VFun f =>
      if String.eqb k "name" then Ok (VStr f) else Ok VUndefined
  | VBool _ | VNum _ => Ok VUndefined
  end.

Fixpoint assoc_set (k : string) (v : value) (props : list (string * value))
  : list (string * value) :=
  match props with
  | [] => [(k, v)]
  | (k', v') :: rest =>
      if String.eqb k k' then (k, v) :: rest else (k', v') :: assoc_set k v rest
  end.

(** [o.k = v] in strict mode: creating a property on a primitive throws.
    Arrays, functions and errors accept the property; the model has no place
    to keep it, and the program never reads it back from one of them. *)
Definition set (o : value) (k : string) (v : value) : result value :=
  match o with
  | VUndefined =>
      Throw (TypeError ("Cannot set property '" +:+ k +:+ "' of undefined"))
  | VNull =>
      Throw (TypeError ("Cannot set property '" +:+ k +:+ "' of null"))
  | VBool _ | VNum _ | VStr _ =>
      Throw (TypeError ("Cannot create property '" +:+ k +:+ "'"))
  | VObj props => Ok (VObj (assoc_set k v props))
  | VArr _ | VFun _ | VErr _ _ => Ok o
  end.

(** [Array.prototype.find]: the first element satisfying [p], or
    [undefined] when there is none. *)
Definition js_find (p : value -> bool) (elems : list value) : value :=
  match List.find p elems with
  | Some v => v
  | None => VUndefined
  end.

Definition strict_eq_null (v : value) : bool :=
  match v with VNull => true | _ => false end.

(** ** Numbers

    [round53 z] is the integer with a 53-bit significand nearest to [z],
    ties going to the even significand: what is left of an exact integer
    result once it is stored in a double. *)
Definition round53 (z : Z) : Z :=
  if (Z.abs z <=? 2 ^ 53)%Z then z
  else
    let a := Z.abs z in
    let e := (Z.log2 a - 52)%Z in
    let unit := (2 ^ e)%Z in
    let q := (a / unit)%Z in
    let r := (a mod unit)%Z in
    let q' :=
      if (2 * r <? unit)%Z then q
      else if (unit <? 2 * r)%Z then (q + 1)%Z
      else if Z.even q then q else (q + 1)%Z in
    (Z.sgn z * (q' * unit))%Z.

(** The double an exact integer becomes: beyond the largest double it is
    an infinity. *)
Definition double_of (z : Z) : number :=
  let r := round53 z in
  if (2 ^ 1024 <=? Z.abs r)%Z then Infinity (r <? 0)%Z else Int r.

(** The number an [Int z] stands for, in canonical form. *)
Definition canonical (n : number) : number :=
  match n with
  | Int z => double_of z
  | _ => n
  end.

(** Subtraction of two numbers. *)
Definition number_sub (a b : number) : number :=
  match canonical a, canonical b with
  | NaN, _ | _, NaN => NaN
  | Infinity s, Infinity t => if Bool.eqb s t then NaN else Infinity s
  | Infinity s, Int _ => Infinity s
  | Int _, Infinity t => Infinity (negb t)
  | Int x, Int y => double_of (x - y)
  end.

(** ** Conversion to a primitive

    Converting an object calls its [toString] and [valueOf].  An object
    made of data that has a [toString] property of its own has no callable
    one, and the inherited [valueOf] returns the object: the conversion
    throws a TypeError.  An array is joined, which converts its elements
    (undefined and null excepted) the same way. *)
Fixpoint has_key (k : string) (props : list (string * value)) : bool :=
  match props with
  | [] => false
  | (k', _) :: rest => if String.eqb k k' then true else has_key k rest
  end.

Fixpoint unconvertible (v : value) : bool :=
  match v with
  | VObj props => has_key "toString" props
  | VArr elems => existsb unconvertible elems
  | _ => false
  end.

(** ** Data exchanged with the host *)

Inductive chartType := area | line.
Inductive chartAlgorithm := absolute.

Record dimension := {
  dim_id : string;
  dim_name : string;
  dim_algorithm : chartAlgorithm;
  dim_multiplier : Z;
  dim_divisor : Z;
  dim_hidden : bool
}.

Record chart := {
  chart_id : string;
  chart_name : string;
  chart_title : string;
  chart_units : string;
  chart_family : string;
  chart_context : string;
  chart_type : chartType;
  chart_priority : Z;
  chart_update_every : value;
  chart_dimensions : list (string * dimension)
}.

(** The service object [netdata.service] hands back: the chart code reads
    its name and its update interval, the collector its connection data. *)
Record service := {
  name : value;
  update_every : value;
  hostname : value;
  port : value;
  username : value;
  password : value;
  chain : value
}.

(** Calls received by the metrics sink, oldest first. *)
Inductive sink_call :=
| SinkChart (id : string) (c : chart)
| SinkCommit
| SinkBegin (c : value)
| SinkSet (dname : string) (v : value)
| SinkEnd.

(** The object [serviceExecute] passes to [netdata.service] (its
    [processor] and [module] fields are the two constant objects of the
    file). *)
Record service_options := {
  so_name : value;
  so_update_every : value;
  so_hostname : value;
  so_port : value;
  so_username : value;
  so_password : value;
  so_chain : value
}.

Inductive log_line :=
| LogError (msg : string)
| LogDebug (msg : string).

(** [charts] is the module-wide cache [multichain.charts]; [sink],
    [services] and [log] record what the host has been told: the calls on
    service objects, the services created and scheduled, the log lines. *)
Record world := {
  charts : gmap string value;
  sink : list sink_call;
  services : list service_options;
  log : list log_line
}.

Definition init : world :=
  {| charts := ∅; sink := []; services := []; log := [] |}.

(** [{ name, value }] *)
Record dimension_value := {
  dv_name : string;
  dv_value : value
}.

(** [{ chart, dimensions }] *)
Record chart_values := {
  cv_chart : value;
  cv_dimensions : list dimension_value
}.

(** What the http(s) module reports for one request: the request emits
    [error], or the response arrives with its status line and headers, its
    body in chunks, and ends. *)
Inductive transport :=
| NetError (e : value)
| NetResponse (statusCode : Z) (statusMessage : value) (headers : value)
    (chunks : list string).

Inductive settled :=
| Resolved (v : value)
| Rejected (e : value).

(** One collection cycle: the requests posted, the accumulator [data], the
    values logged by [netdata.debug] and the arguments the callback was
    called with, oldest first. *)
Record cycle := {
  posted : list value;
  data : value;
  debugged : list value;
  called_back : list value
}.

Definition start : cycle :=
  {| posted := []; data := VObj []; debugged := []; called_back := [] |}.

(** ** A small runtime and network to run the model on

    They instantiate the parameters of the next section where a statement
    is tried on concrete data.  Reply bodies are named, not spelled out:
    [sample_JSON_parse] maps the body of the sample network's one good reply
    to the object it stands for and rejects everything else but the text
    null. *)

Definition sample_StringToNumber (s : string) : number :=
  if String.eqb s "" then Int 0 else NaN.

Definition sample_JSON_parse (v : value) : result value :=
  match v with
  | VStr "null" => Ok VNull
  | VStr "<getinfo reply>" =>
      Ok (VObj [("result", VObj [ ("blocks", VNum (Int 100));
                                  ("connections", VNum (Int 5)) ])])
  | _ => Throw (VErr "SyntaxError" "Unexpected token")
  end.

Definition sample_service_chart (id : string) (c : chart) : value :=
  VObj [("id", VStr id)].

(** getinfo is answered, getmempoolinfo gets a 500, the node is gone by the
    time of liststreams. *)
Definition sample_http_request (options data : value) : transport :=
  match get data "method" with
  | Ok (VStr "getinfo") =>
      NetResponse 200 (VStr "OK") (VObj []) ["<getinfo"; " reply>"]
  | Ok (VStr "getmempoolinfo") =>
      NetResponse 500 (VStr "Internal Server Error") (VObj []) []
  | _ => NetError (VErr "Error" "connect ECONNREFUSED")
  end.

Definition sample_service : service :=
  {| name := VStr "n1"; update_every := VNum (Int 5);
     hostname := VStr "h"; port := VNum (Int 1);
     username := VStr "u"; password := VStr "p"; chain := VStr "c" |}.

Definition sample_streams : list value :=
  [ VObj [ ("name", VStr "s1"); ("subscribed", VBool true);
           ("items", VNum (Int 10)); ("confirmed", VNum (Int 7));
           ("keys", VNum (Int 3)) ];
    VObj [ ("name", VStr "s2"); ("subscribed", VBool false);
           ("items", VNum (Int 4)); ("confirmed", VNum (Int 4));
           ("keys", VNum (Int 1)) ] ].

Definition sample_snapshot : value :=
  VObj [ ("blocks", VNum (Int 100)); ("connections", VNum (Int 5));
         ("memSize", VNum (Int 2)); ("memBytes", VNum (Int 512));
         ("streams", VArr sample_streams) ].

(** A network on which the three calls go through, with the parser of its
    three reply bodies; and one that answers 200 with a page that is not
    JSON. *)
Definition sample_JSON_parse_up (v : value) : result value :=
  match v with
  | VStr "<getinfo reply>" =>
      Ok (VObj [("result", VObj [ ("blocks", VNum (Int 100));
                                  ("connections", VNum (Int 5)) ])])
  | VStr "<getmempoolinfo reply>" =>
      Ok (VObj [("result", VObj [ ("size", VNum (Int 2));
                                  ("bytes", VNum (Int 512)) ])])
  | VStr "<liststreams reply>" =>
      Ok (VObj [("result", VArr sample_streams)])
  | _ => Throw (VErr "SyntaxError" "Unexpected token")
  end.

Definition sample_http_request_up (options data : value) : transport :=
  match get data "method" with
  | Ok (VStr method) =>
      NetResponse 200 (VStr "OK") (VObj []) ["<"; method; " reply>"]
  | _ => NetError (VErr "Error" "connect ECONNREFUSED")
  end.

Definition sample_http_request_page (options data : value) : transport :=
  NetResponse 200 (VStr "OK") (VObj []) ["<html>"; "</html>"].

(** A configuration with a complete entry and one that has a name only;
    the same with a null between the two. *)
Definition sample_server : value :=
  VObj [ ("name", VStr "n1"); ("hostname", VStr "h"); ("port", VNum (Int 1));
         ("username", VStr "u"); ("password", VStr "p"); ("chain", VStr "c");
         ("update_every", VNum (Int 10)); ("path", VStr "/") ].

Definition sample_config : value :=
  VObj [ ("update_every", VNum (Int 5));
         ("servers", VArr [sample_server; VObj [("name", VStr "n2")]]) ].

Definition sample_config_with_null : value :=
  VObj [ ("servers", VArr ([sample_server] ++ VNull :: [VObj [("name", VStr "n2")]])) ].

(** * The plugin

    What the plugin takes from its environment is a parameter of the
    section: the JavaScript runtime's number and JSON parsers, netdata's
    [service.chart], the interval the host configured for the module, and
    the network. *)

Section Runtime.

(** The runtime's StringToNumber grammar. *)
Variable StringToNumber : string -> number.

(** [JSON.parse]: the parsed value, or the thrown SyntaxError. *)
Variable JSON_parse : value -> result value.

(** [service.chart(id, chart)] returns the host's chart object for [id].
    Objects are values here: the object the cache hands back on a later call
    is the one stored, and equal to it. *)
Variable service_chart : string -> chart -> value.

(** [this.update_every]: 5 in the file; the host overwrites it with the
    interval of the configuration file before it calls [configure]. *)
Variable module_update_every : value.

(** The network: what happens to the request [post] sends with these
    options and this body.  The headers and the method [post] adds to the
    options are determined by the body. *)
Variable http_request : value -> value -> transport.

(** ** The subtraction operator

    [a - b] converts the left operand with ToNumber, then the right one, and
    subtracts the two doubles.  ToNumber of an object or an array goes
    through its conversion to a primitive, which may throw. *)

Definition ToNumber (v : value) : result number :=
  match v with
  | VUndefined => Ok NaN
  | VNull => Ok (Int 0)
  | VBool true => Ok (Int 1)
  | VBool false => Ok (Int 0)
  | VNum n => Ok n
  | VStr s => Ok (StringToNumber s)
  | VArr _ | VObj _ | VFun _ | VErr _ _ =>
      if unconvertible v
      then Throw (TypeError "Cannot convert object to primitive value")
      else Ok (StringToNumber (ToString v))
  end.

Definition js_sub (a b : value) : result value :=
  match ToNumber a with
  | Throw e => Throw e
  | Ok x =>
      match ToNumber b with
      | Throw e => Throw e
      | Ok y => Ok (VNum (number_sub x y))
      end
  end.

(** ** Computations over the world *)

Definition M (A : Type) : Type := world -> result A * world.

Definition ret {A} (a : A) : M A := fun w => (Ok a, w).
Definition throw {A} (e : value) : M A := fun w => (Throw e, w).
Definition bind {A B} (m : M A) (k : A -> M B) : M B :=
  fun w => match m w with
           | (Ok a, w') => k a w'
           | (Throw e, w') => (Throw e, w')
           end.
Definition lift {A} (r : result A) : M A := fun w => (r, w).

Notation "'let!' x ':=' m 'in' k" := (bind m (fun x => k))
  (at level 10, x name, m at level 100, k at level 200).
Notation "'do!' m 'in' k" := (bind m (fun _ => k))
  (at level 10, m at level 100, k at level 200).

Definition call_sink (c : sink_call) : M unit :=
  fun w => (Ok tt, {| charts := charts w; sink := sink w ++ [c];
                      services := services w; log := log w |}).

Definition netdata_log (l : log_line) : M unit :=
  fun w => (Ok tt, {| charts := charts w; sink := sink w;
                      services := services w; log := log w ++ [l] |}).

(** [netdata.service(options)] followed by [service.execute(...)]. *)
Definition netdata_service (o : service_options) : M unit :=
  fun w => (Ok tt, {| charts := charts w; sink := sink w;
                      services := services w ++ [o]; log := log w |}).

(** [multichain.charts[id]]: a missing key reads as [undefined].  Every id
    contains a dot, so no id names a property inherited by the cache object. *)
Definition cache_lookup (id : string) : M value :=
  fun w => (Ok (default VUndefined (charts w !! id)), w).

(** [multichain.charts[id] = c] *)
Definition cache_store (id : string) (c : value) : M unit :=
  fun w => (Ok tt, {| charts := <[id := c]> (charts w); sink := sink w;
                      services := services w; log := log w |}).

(** [chart = service.chart(id, chart)] *)
Definition call_service_chart (id : string) (c : chart) : M value :=
  do! call_sink (SinkChart id c) in ret (service_chart id c).

(** [array.forEach(f)].  The local variables the callback assigns to are
    threaded as the accumulator [s].  Calling [forEach] on anything but an
    array throws: undefined and null have no properties, the other values
    have no [forEach]. *)
Fixpoint forEach_list {S} (f : value -> S -> M S) (elems : list value) (s : S)
  : M S :=
  match elems with
  | [] => ret s
  | e :: rest => let! s' := f e s in forEach_list f rest s'
  end.

Definition forEach {S} (a : value) (f : value -> S -> M S) (s : S) : M S :=
  match a with
  | VArr elems => forEach_list f elems s
  | VUndefined => throw (TypeError "Cannot read property 'forEach' of undefined")
  | VNull => throw (TypeError "Cannot read property 'forEach' of null")
  | _ => throw (TypeError "forEach is not a function")
  end.

(** Iteration over an array the module built itself. *)
Fixpoint for_each {A} (f : A -> M unit) (l : list A) : M unit :=
  match l with
  | [] => ret tt
  | a :: rest => do! f a in for_each f rest
  end.

(** [array.map(f)] over an array the module built itself. *)
Fixpoint map_result {A B} (f : A -> result B) (l : list A) : result (list B) :=
  match l with
  | [] => Ok []
  | a :: rest =>
      match f a with
      | Throw e => Throw e
      | Ok b => match map_result f rest with
                | Throw e => Throw e
                | Ok bs => Ok (b :: bs)
                end
      end
  end.

(** ** The module object [multichain] *)

Definition base_priority : Z := 60000.

(** The table [multichain.dimensions]: display name, then the snapshot field
    the dimension reads, in the order [Object.keys] enumerates them. *)
Definition dimensions_blocksSize : list (string * string) := [("size", "memSize")].
Definition dimensions_blocksMemory : list (string * string) := [("memory", "memBytes")].
Definition dimensions_blocks : list (string * string) := [("blocks", "blocks")].
Definition dimensions_connections : list (string * string) :=
  [("connections", "connections")].
Definition dimensions_stream_items : list (string * string) :=
  [("confirmed", "confirmed"); ("unconfirmed", "unconfirmed")].
Definition dimensions_stream_keys : list (string * string) := [("keys", "keys")].

Definition isUndefined (v : value) : bool := String.eqb (typeof v) "undefined".
Definition isDefined (v : value) : bool := negb (String.eqb (typeof v) "undefined").

(** [values.find(value => this.isUndefined(value))] *)
Definition areUndefined (values : list value) : value :=
  js_find isUndefined values.

Definition createBasicDimension (id dname : string) (divisor : Z) : dimension :=
  {| dim_id := id;
     dim_name := dname;
     dim_algorithm := absolute;
     dim_multiplier := 1;
     dim_divisor := divisor;
     dim_hidden := false |}.

Fixpoint dim_set (k : string) (d : dimension) (dim : list (string * dimension))
  : list (string * dimension) :=
  match dim with
  | [] => [(k, d)]
  | (k', d') :: rest =>
      if String.eqb k k' then (k, d) :: rest else (k', d') :: dim_set k d rest
  end.

(** The loop every chart constructor runs over its table:
    [dim[table[dimension]] = createBasicDimension(table[dimension], dimension, 1)] *)
Definition build_dim (table : list (string * string)) : list (string * dimension) :=
  fold_left
    (fun dim entry => dim_set (snd entry)
                        (createBasicDimension (snd entry) (fst entry) 1) dim)
    table [].

Definition getChartId (service : service) (suffix : string) : string :=
  ToString (name service) +:+ "." +:+ suffix.

Definition getStreamKeysChart (service : service) (streamName : value) : M value :=
  let id := getChartId service ("stream." +:+ ToString streamName +:+ ".key") in
  let! chart := cache_lookup id in
  if isDefined chart then ret chart else
  let dim := build_dim dimensions_stream_keys in
  let! chart := call_service_chart id
    {| chart_id := id;
       chart_name := "";
       chart_title := ToString (name service) +:+ " stream "
                        +:+ ToString streamName +:+ " keys";
       chart_units := "keys";
       chart_family := "stream " +:+ ToString streamName;
       chart_context := "multichain";
       chart_type := area;
       chart_priority := (base_priority + 1)%Z;
       chart_update_every := update_every service;
       chart_dimensions := dim |} in
  do! cache_store id chart in
  ret chart.

Definition getStreamItemsChart (service : service) (streamName : value) : M value :=
  let id := getChartId service ("stream." +:+ ToString streamName +:+ ".items") in
  let! chart := cache_lookup id in
  if isDefined chart then ret chart else
  let dim := build_dim dimensions_stream_items in
  let! chart := call_service_chart id
    {| chart_id := id;
       chart_name := "";
       chart_title := ToString (name service) +:+ " stream "
                        +:+ ToString streamName +:+ " items";
       chart_units := "items";
       chart_family := "stream " +:+ ToString streamName;
       chart_context := "multichain";
       chart_type := area;
       chart_priority := (base_priority + 1)%Z;
       chart_update_every := update_every service;
       chart_dimensions := dim |} in
  do! cache_store id chart in
  ret chart.

Definition getBlocksSizeChart (service : service) : M value :=
  let id := getChartId service "blocks.size" in
  let! chart := cache_lookup id in
  if isDefined chart then ret chart else
  let dim := build_dim dimensions_blocksSize in
  let! chart := call_service_chart id
    {| chart_id := id;
       chart_name := "";
       chart_title := ToString (name service) +:+ " blocks size";
       chart_units := "transactions";
       chart_family := "blocks";
       chart_context := "multichain";
       chart_type := area;
       chart_priority := (base_priority + 1)%Z;
       chart_update_every := update_every service;
       chart_dimensions := dim |} in
  do! cache_store id chart in
  ret chart.

Definition getBlocksMemoryChart (service : service) : M value :=
  let id := getChartId service "blocks.memory" in
  let! chart := cache_lookup id in
  if isDefined chart then ret chart else
  let dim := build_dim dimensions_blocksMemory in
  let! chart := call_service_chart id
    {| chart_id := id;
       chart_name := "";
       chart_title := ToString (name service) +:+ " blocks memory";
       chart_units := "bytes";
       chart_family := "blocks";
       chart_context := "multichain";
       chart_type := area;
       chart_priority := (base_priority + 1)%Z;
       chart_update_every := update_every service;
       chart_dimensions := dim |} in
  do! cache_store id chart in
  ret chart.

Definition getBlocksChart (service : service) : M value :=
  let id := getChartId service "blocks.count" in
  let! chart := cache_lookup id in
  if isDefined chart then ret chart else
  let dim := build_dim dimensions_blocks in
  let! chart := call_service_chart id
    {| chart_id := id;
       chart_name := "";
       chart_title := ToString (name service) +:+ " blocks";
       chart_units := "blocks";
       chart_family := "blocks";
       chart_context := "multichain";
       chart_type := area;
       chart_priority := (base_priority + 1)%Z;
       chart_update_every := update_every service;
       chart_dimensions := dim |} in
  do! cache_store id chart in
  ret chart.

Definition getConnectionsChart (service : service) : M value :=
  let id := getChartId service "connections.count" in
  let! chart := cache_lookup id in
  if isDefined chart then ret chart else
  let dim := build_dim dimensions_connections in
  let! chart := call_service_chart id
    {| chart_id := id;
       chart_name := "";
       chart_title := ToString (name service) +:+ " connections";
       chart_units := "connections";
       chart_family := "connections";
       chart_context := "multichain";
       chart_type := line;
       chart_priority := (base_priority + 1)%Z;
       chart_update_every := update_every service;
       chart_dimensions := dim |} in
  do! cache_store id chart in
  ret chart.

(** ** The stats mapper *)

Definition getDimension (dname : string) (v : value) : dimension_value :=
  {| dv_name := dname; dv_value := v |}.

Definition getChart (c : value) (dims : list dimension_value) : chart_values :=
  {| cv_chart := c; cv_dimensions := dims |}.

(** [Object.keys(table).map(dimension =>
       this.getDimension(table[dimension], stats[table[dimension]]))] *)
Definition table_dimensions (table : list (string * string)) (stats : value)
  : result (list dimension_value) :=
  map_result
    (fun entry => match get stats (snd entry) with
                  | Ok v => Ok (getDimension (snd entry) v)
                  | Throw e => Throw e
                  end)
    table.

Definition parseStreamItemsChart (service : service) (streamStats : value)
  : M chart_values :=
  let! items := lift (get streamStats "items") in
  let! confirmed := lift (get streamStats "confirmed") in
  let! streamName := lift (get streamStats "name") in
  let! c := getStreamItemsChart service streamName in
  let! confirmed' := lift (get streamStats "confirmed") in
  let! unconfirmed := lift (js_sub items confirmed) in
  ret (getChart c [ getDimension "confirmed" confirmed';
                    getDimension "unconfirmed" unconfirmed ]).

Definition parseStreamKeysChart (service : service) (streamStats : value)
  : M chart_values :=
  let! streamName := lift (get streamStats "name") in
  let! c := getStreamKeysChart service streamName in
  let! dims := lift (table_dimensions dimensions_stream_keys streamStats) in
  ret (getChart c dims).

Definition parseBlocksSizeChart (service : service) (stats : value)
  : M chart_values :=
  let! c := getBlocksSizeChart service in
  let! dims := lift (table_dimensions dimensions_blocksSize stats) in
  ret (getChart c dims).

Definition parseBlocksMemoryChart (service : service) (stats : value)
  : M chart_values :=
  let! c := getBlocksMemoryChart service in
  let! dims := lift (table_dimensions dimensions_blocksMemory stats) in
  ret (getChart c dims).

Definition parseBlocksChart (service : service) (stats : value)
  : M chart_values :=
  let! c := getBlocksChart service in
  let! dims := lift (table_dimensions dimensions_blocks stats) in
  ret (getChart c dims).

Definition parseConnectionsChart (service : service) (stats : value)
  : M chart_values :=
  let! c := getConnectionsChart service in
  let! dims := lift (table_dimensions dimensions_connections stats) in
  ret (getChart c dims).

(** The callback of [stats.streams.forEach]; [charts] is the array it
    pushes to. *)
Definition parseCharts_stream (service : service) (stream : value)
    (charts : list chart_values) : M (list chart_values) :=
  let! subscribed := lift (get stream "subscribed") in
  if ToBoolean subscribed then
    let! items := parseStreamItemsChart service stream in
    let! keys := parseStreamKeysChart service stream in
    ret (charts ++ [items] ++ [keys])%list
  else ret charts.

Definition parseCharts (service : service) (stats : value)
  : M (list chart_values) :=
  let! streams := lift (get stats "streams") in
  let! charts := forEach streams (parseCharts_stream service) [] in
  let! c1 := parseBlocksSizeChart service stats in
  let! c2 := parseBlocksMemoryChart service stats in
  let! c3 := parseBlocksChart service stats in
  let! c4 := parseConnectionsChart service stats in
  ret (charts ++ [c1] ++ [c2] ++ [c3] ++ [c4])%list.

(** some basic validation *)
Definition isResponseValid (json : value) : result bool :=
  match get json "blocks" with
  | Throw e => Throw e
  | Ok blocks =>
      if isUndefined blocks then Ok false
      else match get json "connections" with
           | Throw e => Throw e
           | Ok connections => Ok (isDefined connections)
           end
  end.

Definition validated (json : value) : M value :=
  let! valid := lift (isResponseValid json) in
  ret (if valid : bool then json else VNull).

Definition convertToJson (content : value) : M value :=
  if strict_eq_null content then ret VNull else
  if negb (String.eqb (typeof content) "object") then
    match JSON_parse content with
    | Ok json => validated json
    | Throw error =>
        let! message := lift (get error "message") in
        do! netdata_log (LogError
              ("multichain: Got a response, but it is not valid JSON. Ignoring. Error: "
                 +:+ ToString message)) in
        ret VNull
    end
  else validated content.

(** The body of [charts.forEach] in [processResponse]. *)
Definition emit (c : chart_values) : M unit :=
  do! call_sink (SinkBegin (cv_chart c)) in
  do! for_each (fun d => call_sink (SinkSet (dv_name d) (dv_value d)))
        (cv_dimensions c) in
  call_sink SinkEnd.

Definition processResponse (service : service) (content : value) : M unit :=
  let! stats := convertToJson content in
  if strict_eq_null stats then ret tt else
  do! call_sink SinkCommit in
  let! charts := parseCharts service stats in
  for_each emit charts.

(** ** The orchestrator *)

Definition serviceExecute (server : value) : M unit :=
  let! sname := lift (get server "name") in
  let! hostname := lift (get server "hostname") in
  let! port := lift (get server "port") in
  let! path := lift (get server "path") in
  let! updateEvery := lift (get server "updateEvery") in
  do! netdata_log (LogDebug
        ("multichain: " +:+ ToString sname +:+ ": url: " +:+ ToString hostname
           +:+ ":" +:+ ToString port +:+ ToString path
           +:+ ", update_every: " +:+ ToString updateEvery)) in
  let! username := lift (get server "username") in
  let! password := lift (get server "password") in
  let! chain := lift (get server "chain") in
  netdata_service
    {| so_name := sname;
       so_update_every := updateEvery;
       so_hostname := hostname;
       so_port := port;
       so_username := username;
       so_password := password;
       so_chain := chain |}.

(** [if (this.isUndefined(server.update_every))
       server.update_every = this.update_every] *)
Definition default_update_every (server : value) : result value :=
  match get server "update_every" with
  | Throw e => Throw e
  | Ok u => if isUndefined u then set server "update_every" module_update_every
            else Ok server
  end.

(** The callback of [config.servers.forEach]; [added] is the counter it
    increments. *)
Definition configure_server (server : value) (added : Z) : M Z :=
  let! server := lift (default_update_every server) in
  let! sname := lift (get server "name") in
  let! hostname := lift (get server "hostname") in
  let! port := lift (get server "port") in
  let! username := lift (get server "username") in
  let! password := lift (get server "password") in
  let! chain := lift (get server "chain") in
  let! path := lift (get server "path") in
  if ToBoolean (areUndefined [sname; hostname; port; username; password; chain; path])
  then ret added
  else do! serviceExecute server in ret (added + 1)%Z.

Definition configure (config : value) : M Z :=
  let! servers := lift (get config "servers") in
  if isUndefined servers then ret 0%Z else
  forEach servers configure_server 0%Z.

(** ** The processor [netdata.processors.multichainProcessor] *)

(** [a || b] *)
Definition js_or (a b : value) : value := if ToBoolean a then a else b.

Definition post (options data : value) : settled :=
  match http_request options data with
  | NetResponse statusCode statusMessage headers chunks =>
      let body :=
        match JSON_parse (VStr (String.concat "" chunks)) with
        | Ok json => json
        | Throw error => VObj [("error", error)]
        end in
      let response :=
        VObj [ ("statusCode", VNum (Int statusCode));
               ("statusMessage", js_or statusMessage (VStr ""));
               ("headers", headers);
               ("body", body) ] in
      if (statusCode <? 200)%Z || (statusCode >? 299)%Z
      then Rejected response
      else Resolved response
  | NetError e =>
      Rejected (VObj [ ("statusCode", VNum (Int (-1)));
                       ("statusMessage", VStr "Error during call");
                       ("body", VObj [("error", e)]) ])
  end.

(** The status codes the interface calls a success. *)
Definition is_2xx (statusCode : Z) : Prop := (200 <= statusCode <= 299)%Z.

Definition Promise : Type := cycle -> settled * cycle.

(** [p.then(f)]: [f] runs on fulfilment only; what it throws rejects. *)
Definition then_ (p : Promise) (f : value -> Promise) : Promise :=
  fun c => match p c with
           | (Resolved v, c') => f v c'
           | (Rejected e, c') => (Rejected e, c')
           end.

(** [p.catch(f)] *)
Definition catch_ (p : Promise) (f : value -> Promise) : Promise :=
  fun c => match p c with
           | (Resolved v, c') => (Resolved v, c')
           | (Rejected e, c') => f e c'
           end.

(** Inside a handler: evaluate [r]; a throw rejects the promise. *)
Definition try_ {A} (r : result A) (k : A -> Promise) : Promise :=
  match r with
  | Ok a => k a
  | Throw e => fun c => (Rejected e, c)
  end.

Definition this_post (options request : value) : Promise :=
  fun c => (post options request,
            {| posted := posted c ++ [request]; data := data c;
               debugged := debugged c; called_back := called_back c |}).

(** [data.k = v] *)
Definition data_set (k : string) (v : value) (next : Promise) : Promise :=
  fun c => match set (data c) k v with
           | Ok d => next {| posted := posted c; data := d;
                             debugged := debugged c;
                             called_back := called_back c |}
           | Throw e => (Rejected e, c)
           end.

(** [netdata.debug(JSON.stringify(v))]; [JSON.stringify] does not throw on
    what the chain rejects with, response objects and Error instances. *)
Definition netdata_debug (v : value) (next : Promise) : Promise :=
  fun c => next {| posted := posted c; data := data c;
                   debugged := debugged c ++ [v];
                   called_back := called_back c |}.

(** Calling the callback the host passed in; it may throw. *)
Definition call (callback : value -> result value) (arg : value) : Promise :=
  fun c => (match callback arg with
            | Ok v => Resolved v
            | Throw e => Rejected e
            end,
            {| posted := posted c; data := data c; debugged := debugged c;
               called_back := called_back c ++ [arg] |}).

Definition rpc (method : string) (chain_name : value) : value :=
  VObj [ ("method", VStr method); ("chain_name", chain_name);
         ("id", VNum (Int 1)); ("jsonrpc", VStr "1.0"); ("params", VArr []) ].

(** [x.body.result] *)
Definition body_result (response : value) : result value :=
  match get response "body" with
  | Throw e => Throw e
  | Ok body => get body "result"
  end.

(** [x.body.result.k] *)
Definition body_result_field (response : value) (k : string) : result value :=
  match body_result response with
  | Throw e => Throw e
  | Ok r => get r k
  end.

Definition process_options (service : service) : value :=
  VObj [ ("hostname", hostname service);
         ("port", port service);
         ("auth", VStr (ToString (username service) +:+ ":"
                          +:+ ToString (password service)));
         ("chain", chain service) ].

Definition process (service : service) (callback : value -> result value)
  : Promise :=
  let options := process_options service in
  let getinfo := rpc "getinfo" (chain service) in
  let getmempoolinfo := rpc "getmempoolinfo" (chain service) in
  let liststreams := rpc "liststreams" (chain service) in
  catch_
    (then_
      (then_
        (then_
          (then_ (this_post options getinfo)
            (fun info =>
               try_ (body_result_field info "blocks") (fun blocks =>
               data_set "blocks" blocks (
               try_ (body_result_field info "connections") (fun connections =>
               data_set "connections" connections (
               this_post options getmempoolinfo))))))
          (fun mempoolinfo =>
             try_ (body_result_field mempoolinfo "size") (fun size =>
             data_set "memSize" size (
             try_ (body_result_field mempoolinfo "bytes") (fun bytes =>
             data_set "memBytes" bytes (
             this_post options liststreams))))))
        (fun streams =>
           try_ (body_result streams) (fun r =>
           data_set "streams" r (
           fun c => (Resolved (data c), c)))))
      (call callback))
    (fun error => netdata_debug error (call callback VNull)).

(** ** Vocabulary of the statements *)

(** Whether a handler can read [response.body.result.k] for each [k]. *)
Definition readable (response : value) (fields : list string) : bool :=
  forallb (fun k => match body_result_field response k with
                    | Ok _ => true
                    | Throw _ => false
                    end) fields.

(** Whether each of the three calls of a cycle goes through: its promise
    resolves and its handler reads what it needs without throwing. *)
Definition getinfo_succeeds (service : service) : bool :=
  match post (process_options service) (rpc "getinfo" (chain service)) with
  | Resolved info => readable info ["blocks"; "connections"]
  | Rejected _ => false
  end.

Definition getmempoolinfo_succeeds (service : service) : bool :=
  match post (process_options service) (rpc "getmempoolinfo" (chain service)) with
  | Resolved mempoolinfo => readable mempoolinfo ["size"; "bytes"]
  | Rejected _ => false
  end.

Definition liststreams_succeeds (service : service) : bool :=
  match post (process_options service) (rpc "liststreams" (chain service)) with
  | Resolved streams => match body_result streams with
                        | Ok _ => true
                        | Throw _ => false
                        end
  | Rejected _ => false
  end.

(** The snapshot [convertToJson] validates: the content itself when it is
    an object already, what [JSON.parse] makes of it otherwise. *)
Definition parsed (content json : value) : Prop :=
  (typeof content = "object" /\ json = content) \/
  (typeof content <> "object" /\ JSON_parse content = Ok json).

(** What the cache holds under [id]. *)
Definition cached (w : world) (id : string) : value :=
  default VUndefined (charts w !! id).

(** The steps the six chart constructors share: look the id up, and on a
    miss register the definition with the sink and cache what the sink
    returns. *)
Definition get_or_create (id : string) (c : chart) : M value :=
  let! chart := cache_lookup id in
  if isDefined chart then ret chart else
  let! chart := call_service_chart id c in
  do! cache_store id chart in
  ret chart.

(** The six kinds of chart, as the interface names them:
    [getOrCreateChart(node, kind, [streamName])]. *)
Inductive chart_kind :=
| StreamKeys (streamName : value)
| StreamItems (streamName : value)
| BlocksSize
| BlocksMemory
| Blocks
| Connections.

Definition chart_suffix (kind : chart_kind) : string :=
  match kind with
  | StreamKeys streamName => "stream." +:+ ToString streamName +:+ ".key"
  | StreamItems streamName => "stream." +:+ ToString streamName +:+ ".items"
  | BlocksSize => "blocks.size"
  | BlocksMemory => "blocks.memory"
  | Blocks => "blocks.count"
  | Connections => "connections.count"
  end.

Definition getOrCreateChart (service : service) (kind : chart_kind) : M value :=
  match kind with
  | StreamKeys streamName => getStreamKeysChart service streamName
  | StreamItems streamName => getStreamItemsChart service streamName
  | BlocksSize => getBlocksSizeChart service
  | BlocksMemory => getBlocksMemoryChart service
  | Blocks => getBlocksChart service
  | Connections => getConnectionsChart service
  end.

(** The ids [service.chart] was called with, oldest first. *)
Fixpoint registered (calls : list sink_call) : list string :=
  match calls with
  | [] => []
  | SinkChart id _ :: rest => id :: registered rest
  | _ :: rest => registered rest
  end.

(** Collection cycles, one after the other: each hands a content to
    [processResponse] for a service; a cycle that throws leaves the world as
    it was at the throw. *)
Fixpoint run (cycles : list (service * value)) (w : world) : world :=
  match cycles with
  | [] => w
  | (service, content) :: rest =>
      run rest (snd (processResponse service content w))
  end.

(** What ties the cache to the sink: no id was registered twice, and every
    registered id is cached. *)
Definition consistent (w : world) : Prop :=
  NoDup (registered (sink w)) /\
  forall id, id ∈ registered (sink w) -> isDefined (cached w id) = true.

Definition preserves {A} (P : world -> Prop) (m : M A) : Prop :=
  forall w, P w -> P (snd (m w)).

(** Two kinds name the same chart of a node. *)
Definition same_chart (k1 k2 : chart_kind) : Prop :=
  match k1, k2 with
  | StreamKeys a, StreamKeys b => ToString a = ToString b
  | StreamItems a, StreamItems b => ToString a = ToString b
  | BlocksSize, BlocksSize
  | BlocksMemory, BlocksMemory
  | Blocks, Blocks
  | Connections, Connections => True
  | _, _ => False
  end.

(** *** The mapper as the specification words it

    The data model types a stream entry: a name, the subscription flag and
    the counts, which are integers a double holds exactly. *)
Record StreamStat := {
  ss_name : string;
  ss_subscribed : bool;
  ss_items : Z;
  ss_confirmed : Z;
  ss_keys : value
}.

Definition is_count (z : Z) : Prop := (0 <= z <= 2 ^ 53)%Z.

(** [v] is the entry of the RPC result that [s] describes. *)
Definition is_StreamStat (v : value) (s : StreamStat) : Prop :=
  exists props,
    v = VObj props /\
    assoc "name" props = VStr (ss_name s) /\
    assoc "subscribed" props = VBool (ss_subscribed s) /\
    assoc "items" props = VNum (Int (ss_items s)) /\
    assoc "confirmed" props = VNum (Int (ss_confirmed s)) /\
    assoc "keys" props = ss_keys s /\
    is_count (ss_items s) /\ is_count (ss_confirmed s).

(** A field of a snapshot or of a stream entry. *)
Definition field (o : value) (k : string) : value :=
  match get o k with
  | Ok v => v
  | Throw _ => VUndefined
  end.

(** Step 1 of the mapper, for one stream of node [node]: the items chart
    and the keys chart when the stream is subscribed, each with the chart
    object the cache [w] holds for it. *)
Definition stream_charts (w : world) (node : string) (s : StreamStat)
  : list chart_values :=
  if ss_subscribed s then
    [ {| cv_chart := cached w (node +:+ ".stream." +:+ ss_name s +:+ ".items");
         cv_dimensions :=
           [ {| dv_name := "confirmed";
                dv_value := VNum (Int (ss_confirmed s)) |};
             {| dv_name := "unconfirmed";
                dv_value := VNum (Int (ss_items s - ss_confirmed s)) |} ] |};
      {| cv_chart := cached w (node +:+ ".stream." +:+ ss_name s +:+ ".key");
         cv_dimensions :=
           [ {| dv_name := "keys"; dv_value := ss_keys s |} ] |} ]
  else [].

(** Steps 1 and 2: which charts, in which order, with which values.  The
    dimensions of the node-level charts go by their ids: memSize is the
    dimension the blocks-size chart shows as size, memBytes the one the
    blocks-memory chart shows as memory. *)
Definition mapToCharts (w : world) (node : string) (snapshot : value)
    (streams : list StreamStat) : list chart_values :=
  (flat_map (stream_charts w node) streams ++
   [ {| cv_chart := cached w (node +:+ ".blocks.size");
        cv_dimensions :=
          [ {| dv_name := "memSize"; dv_value := field snapshot "memSize" |} ] |};
     {| cv_chart := cached w (node +:+ ".blocks.memory");
        cv_dimensions :=
          [ {| dv_name := "memBytes"; dv_value := field snapshot "memBytes" |} ] |};
     {| cv_chart := cached w (node +:+ ".blocks.count");
        cv_dimensions :=
          [ {| dv_name := "blocks"; dv_value := field snapshot "blocks" |} ] |};
     {| cv_chart := cached w (node +:+ ".connections.count");
        cv_dimensions :=
          [ {| dv_name := "connections";
               dv_value := field snapshot "connections" |} ] |} ])%list.

(** The same, chart kind by chart kind. *)
Definition stream_kinds (s : StreamStat)
  : list (chart_kind * list dimension_value) :=
  if ss_subscribed s then
    [ (StreamItems (VStr (ss_name s)),
       [ {| dv_name := "confirmed"; dv_value := VNum (Int (ss_confirmed s)) |};
         {| dv_name := "unconfirmed";
            dv_value := VNum (Int (ss_items s - ss_confirmed s)) |} ]);
      (StreamKeys (VStr (ss_name s)),
       [ {| dv_name := "keys"; dv_value := ss_keys s |} ]) ]
  else [].

Definition snapshot_kinds (snapshot : value) (streams : list StreamStat)
  : list (chart_kind * list dimension_value) :=
  (flat_map stream_kinds streams ++
   [ (BlocksSize,
      [ {| dv_name := "memSize"; dv_value := field snapshot "memSize" |} ]);
     (BlocksMemory,
      [ {| dv_name := "memBytes"; dv_value := field snapshot "memBytes" |} ]);
     (Blocks,
      [ {| dv_name := "blocks"; dv_value := field snapshot "blocks" |} ]);
     (Connections,
      [ {| dv_name := "connections";
           dv_value := field snapshot "connections" |} ]) ])%list.

(** The streams of the example of the specification as stream entries of
    the data model, with a second, unsubscribed stream. *)
Definition sample_typed_streams : list StreamStat :=
  [ {| ss_name := "s1"; ss_subscribed := true; ss_items := 10;
       ss_confirmed := 7; ss_keys := VNum (Int 3) |};
    {| ss_name := "s2"; ss_subscribed := false; ss_items := 4;
       ss_confirmed := 4; ss_keys := VNum (Int 1) |} ].

(** The chart object of a kind: what the cache holds under its id. *)
Definition chart_object (w : world) (service : service) (kind : chart_kind)
  : value :=
  cached w (getChartId service (chart_suffix kind)).

Definition realize (w : world) (service : service)
    (e : chart_kind * list dimension_value) : chart_values :=
  getChart (chart_object w service (fst e)) (snd e).

Definition settled_in (w : world) (service : service)
    (e : chart_kind * list dimension_value) : Prop :=
  isDefined (chart_object w service (fst e)) = true.

(** Cached charts stay what they are. *)
Definition extends (w w' : world) : Prop :=
  forall id, isDefined (cached w id) = true -> cached w' id = cached w id.

(** [m] yields the chart values of [e], creating the chart if need be. *)
Definition produces (service : service) (m : M chart_values)
    (e : chart_kind * list dimension_value) : Prop :=
  forall w, exists w',
    m w = (Ok (realize w' service e), w') /\
    settled_in w' service e /\ extends w w'.

(** ** Vocabulary of the further statements *)

(** The options [serviceExecute] builds from a server entry. *)
Definition options_of (server : value) : service_options :=
  {| so_name := field server "name";
     so_update_every := field server "updateEvery";
     so_hostname := field server "hostname";
     so_port := field server "port";
     so_username := field server "username";
     so_password := field server "password";
     so_chain := field server "chain" |}.

(** The values that are not objects: reading a property of one gives
    undefined or throws, and none can take a new property. *)
Definition is_primitive (v : value) : bool :=
  match v with
  | VUndefined | VNull | VBool _ | VNum _ | VStr _ => true
  | VArr _ | VObj _ | VFun _ | VErr _ _ => false
  end.

(** The three requests of a cycle, in the order [process] posts them. *)
Definition the_requests (service : service) : list value :=
  [ rpc "getinfo" (chain service);
    rpc "getmempoolinfo" (chain service);
    rpc "liststreams" (chain service) ].

(** The calls that submit samples, as opposed to those that register a
    chart or commit the service. *)
Definition is_sample (c : sink_call) : bool :=
  match c with
  | SinkBegin _ | SinkSet _ _ | SinkEnd => true
  | SinkChart _ _ | SinkCommit => false
  end.

Definition samples (calls : list sink_call) : list sink_call :=
  List.filter is_sample calls.

(** The calls [processResponse] makes for one entry of the mapper's
    result: begin, one set per dimension, end. *)
Definition frame (c : chart_values) : list sink_call :=
  (SinkBegin (cv_chart c)
     :: map (fun d => SinkSet (dv_name d) (dv_value d)) (cv_dimensions c)
     ++ [SinkEnd])%list.

(** A registration made for [service]: the definition carries the id it is
    registered under, which is an id of that service, and the service's
    interval. *)
Definition registered_for (service : service) (call : sink_call) : Prop :=
  match call with
  | SinkChart id c =>
      chart_id c = id /\
      (exists kind, id = getChartId service (chart_suffix kind)) /\
      chart_update_every c = update_every service /\
      chart_priority c = 60001%Z /\
      chart_context c = "multichain"
  | _ => True
  end.

(** The two values without properties. *)
Definition is_nullish (v : value) : bool :=
  match v with
  | VUndefined | VNull => true
  | _ => false
  end.

(** A stream entry the mapper gets through: not null or undefined and,
    when its [subscribed] is truthy, with [items] and [confirmed] that the
    subtraction can convert to numbers. *)
Definition mappable (s : value) : bool :=
  negb (is_nullish s) &&
  (negb (ToBoolean (field s "subscribed")) ||
   negb (unconvertible (field s "items")) &&
   negb (unconvertible (field s "confirmed"))).

(** A stream entry whose name the template literal of the chart id can
    convert to a string, when the entry is charted at all. *)
Definition named (s : value) : bool :=
  negb (ToBoolean (field s "subscribed")) ||
  negb (unconvertible (field s "name")).

(** * Properties *)

(** ** Orchestrator *)

Lemma isUndefined_spec v : isUndefined v = true <-> v = VUndefined.
Proof. destruct v; simpl; split; (discriminate || reflexivity). Qed.

(** [find] hands back the element it found; the element found by
    [areUndefined] is [undefined] itself, so the function has one result. *)
Lemma areUndefined_undefined values : areUndefined values = VUndefined.
Proof.
  unfold areUndefined, js_find.
  destruct (List.find isUndefined values) as [v|] eqn:Hfind; [|reflexivity].
  apply find_some in Hfind as [_ Hv]. by apply isUndefined_spec.
Qed.

(** Hence the guard of [configure] never skips an entry. *)
Lemma configure_server_object props added w :
  exists w',
    configure_server (VObj props) added w = (Ok (added + 1)%Z, w') /\
    length (services w') = S (length (services w)).
Proof.
  unfold configure_server, default_update_every. simpl.
  destruct (isUndefined (assoc "update_every" props)); simpl;
    unfold bind, lift, ret; simpl; rewrite areUndefined_undefined; simpl;
    eexists; (split; [reflexivity|]); simpl; rewrite length_app; simpl; lia.
Qed.

Lemma configure_registers_every_object entries :
  Forall (fun e => exists props, e = VObj props) entries ->
  forall added w,
    exists w',
      forEach_list configure_server entries added w
        = (Ok (added + Z.of_nat (length entries))%Z, w') /\
      length (services w') = (length (services w) + length entries)%nat.
Proof.
  induction 1 as [|e entries [props ->] _ IH]; intros added w.
  - exists w. simpl. unfold ret. split; [f_equal; f_equal; lia | lia].
  - destruct (configure_server_object props added w) as (w1 & Hhead & Hlen1).
    destruct (IH (added + 1)%Z w1) as (w2 & Htail & Hlen2).
    exists w2. cbn [forEach_list]. unfold bind. rewrite Hhead, Htail.
    split; [f_equal; f_equal; simpl length; lia | simpl length; lia].
Qed.

Lemma configure_no_servers config w :
  get config "servers" = Ok VUndefined -> configure config w = (Ok 0%Z, w).
Proof. intros H. unfold configure, bind, lift. by rewrite H. Qed.

(** C1, at the input [{servers: [{name: "n1"}]}]: the entry lacks hostname,
    port, username, password, chain and path, and [configure] still creates
    a service for it and returns 1.  The claim has it skipped and 0
    returned. *)
Theorem configure_registers_incomplete_entry :
  let config := VObj [("servers", VArr [VObj [("name", VStr "n1")]])] in
  let r := configure config init in
  fst r = Ok 1%Z /\
  services (snd r) =
    [ {| so_name := VStr "n1"; so_update_every := VUndefined;
         so_hostname := VUndefined; so_port := VUndefined;
         so_username := VUndefined; so_password := VUndefined;
         so_chain := VUndefined |} ].
Proof. split; reflexivity. Qed.

(** What [serviceExecute] passes on as the interval of the service is the
    entry's [updateEvery]. *)
Lemma serviceExecute_reads_updateEvery props w :
  map so_update_every (services (snd (serviceExecute (VObj props) w)))
  = (map so_update_every (services w) ++ [assoc "updateEvery" props])%list.
Proof. simpl. by rewrite map_app. Qed.

(** C7, at a complete entry with [update_every: 10]: the options handed to
    [netdata.service] carry [server.updateEvery], a key the configuration
    does not have, and not the entry's [update_every]. *)
Theorem serviceExecute_drops_update_every :
  let server :=
    VObj [ ("name", VStr "n1"); ("hostname", VStr "h"); ("port", VNum (Int 1));
           ("username", VStr "u"); ("password", VStr "p"); ("chain", VStr "c");
           ("update_every", VNum (Int 10)); ("path", VStr "/") ] in
  let r := configure (VObj [("servers", VArr [server])]) init in
  fst r = Ok 1%Z /\
  default_update_every server = Ok server /\
  map so_update_every (services (snd r)) = [VUndefined].
Proof. repeat split; reflexivity. Qed.

(** ** Validation *)

(** C10: an object with blocks and connections and no streams passes
    [isResponseValid], and [processResponse] throws on it after
    [service.commit()], when [parseCharts] calls [forEach] on undefined. *)
Theorem valid_snapshot_without_streams_throws :
  exists content,
    get content "streams" = Ok VUndefined /\
    isResponseValid content = Ok true /\
    forall service w,
      exists e,
        parseCharts service content w = (Throw e, w) /\
        processResponse service content w =
          (Throw e, {| charts := charts w; sink := sink w ++ [SinkCommit];
                       services := services w; log := log w |}).
Proof.
  exists (VObj [("blocks", VNum (Int 100)); ("connections", VNum (Int 5))]).
  repeat split. intros service w. eexists. split; reflexivity.
Qed.

(** ** RPC client *)

Lemma post_response options data statusCode statusMessage headers chunks :
  http_request options data = NetResponse statusCode statusMessage headers chunks ->
  let body :=
    match JSON_parse (VStr (String.concat "" chunks)) with
    | Ok json => json
    | Throw error => VObj [("error", error)]
    end in
  let response :=
    VObj [ ("statusCode", VNum (Int statusCode));
           ("statusMessage", js_or statusMessage (VStr ""));
           ("headers", headers); ("body", body) ] in
  (is_2xx statusCode -> post options data = Resolved response) /\
  (~ is_2xx statusCode -> post options data = Rejected response).
Proof.
  intros Hreq body response. unfold post, is_2xx. rewrite Hreq. fold body response.
  destruct (statusCode <? 200)%Z eqn:Hlo, (statusCode >? 299)%Z eqn:Hhi; simpl;
    split; intros; try reflexivity; exfalso; lia.
Qed.

(** C8: [post] resolves exactly when a response arrived whose status code is
    in [200, 299]; a response in that range whose body does not parse
    resolves with the parse error in [body.error]; a response outside it
    rejects with the response; an error on the request rejects with
    [statusCode] -1. *)
Theorem post_settles options data :
  ((exists response, post options data = Resolved response) <->
   (exists statusCode statusMessage headers chunks,
      http_request options data
        = NetResponse statusCode statusMessage headers chunks /\
      is_2xx statusCode)) /\
  (forall statusCode statusMessage headers chunks error,
     http_request options data
       = NetResponse statusCode statusMessage headers chunks ->
     is_2xx statusCode ->
     JSON_parse (VStr (String.concat "" chunks)) = Throw error ->
     exists response body,
       post options data = Resolved response /\
       get response "body" = Ok body /\
       get body "error" = Ok error) /\
  (forall statusCode statusMessage headers chunks,
     http_request options data
       = NetResponse statusCode statusMessage headers chunks ->
     ~ is_2xx statusCode ->
     post options data =
       Rejected
         (VObj [ ("statusCode", VNum (Int statusCode));
                 ("statusMessage", js_or statusMessage (VStr ""));
                 ("headers", headers);
                 ("body", match JSON_parse (VStr (String.concat "" chunks)) with
                          | Ok json => json
                          | Throw error => VObj [("error", error)]
                          end) ])) /\
  (forall e,
     http_request options data = NetError e ->
     exists response,
       post options data = Rejected response /\
       get response "statusCode" = Ok (VNum (Int (-1))) /\
       get response "body" = Ok (VObj [("error", e)])).
Proof.
  repeat split.
  - intros [response Hpost].
    destruct (http_request options data) as [e|code msg hd chunks] eqn:Hreq.
    + unfold post in Hpost. rewrite Hreq in Hpost. discriminate.
    + exists code, msg, hd, chunks. split; [reflexivity|].
      destruct (decide (is_2xx code)) as [|Hn]; [assumption|].
      destruct (post_response _ _ _ _ _ _ Hreq) as [_ Hrej].
      rewrite (Hrej Hn) in Hpost. discriminate.
  - intros (code & msg & hd & chunks & Hreq & Hcode).
    destruct (post_response _ _ _ _ _ _ Hreq) as [Hres _].
    eexists. exact (Hres Hcode).
  - intros code msg hd chunks error Hreq Hcode Hparse.
    destruct (post_response _ _ _ _ _ _ Hreq) as [Hres _].
    do 2 eexists. split; [exact (Hres Hcode)|]. rewrite Hparse. split; reflexivity.
  - intros code msg hd chunks Hreq Hcode.
    destruct (post_response _ _ _ _ _ _ Hreq) as [_ Hrej].
    exact (Hrej Hcode).
  - intros e Hreq. unfold post. rewrite Hreq. eexists. repeat split.
Qed.

(** ** Collector *)

(** C2: when one of the three calls fails, by a rejected promise or by a
    handler that throws on the response, no later call is posted and the
    callback is called once, with null; the fields gathered so far stay in
    the accumulator and reach nobody. *)
Theorem process_failure_passes_null service callback :
  getinfo_succeeds service && getmempoolinfo_succeeds service
    && liststreams_succeeds service = false ->
  let c := snd (process service callback start) in
  called_back c = [VNull] /\
  posted c =
    if negb (getinfo_succeeds service) then
      [rpc "getinfo" (chain service)]
    else if negb (getmempoolinfo_succeeds service) then
      [rpc "getinfo" (chain service); rpc "getmempoolinfo" (chain service)]
    else
      [rpc "getinfo" (chain service); rpc "getmempoolinfo" (chain service);
       rpc "liststreams" (chain service)].
Proof.
  unfold getinfo_succeeds, getmempoolinfo_succeeds, liststreams_succeeds, readable.
  unfold process, catch_, then_, this_post, start. simpl.
  destruct (post _ (rpc "getinfo" _)) as [info|e1]; simpl; [|intros _; split; reflexivity].
  destruct (body_result_field info "blocks") as [blocks|e1]; simpl;
    [|intros _; split; reflexivity].
  destruct (body_result_field info "connections") as [connections|e1]; simpl;
    [|intros _; split; reflexivity].
  destruct (post _ (rpc "getmempoolinfo" _)) as [mempoolinfo|e2]; simpl;
    [|intros _; split; reflexivity].
  destruct (body_result_field mempoolinfo "size") as [size|e2]; simpl;
    [|intros _; split; reflexivity].
  destruct (body_result_field mempoolinfo "bytes") as [bytes|e2]; simpl;
    [|intros _; split; reflexivity].
  destruct (post _ (rpc "liststreams" _)) as [streams|e3]; simpl;
    [|intros _; split; reflexivity].
  destruct (body_result streams) as [r|e3]; simpl;
    [discriminate|intros _; split; reflexivity].
Qed.

(** The other side: when the three calls go through, the callback receives
    the five gathered fields (and null afterwards only if it threw). *)
Lemma process_success service callback :
  getinfo_succeeds service && getmempoolinfo_succeeds service
    && liststreams_succeeds service = true ->
  exists blocks connections size bytes streams,
    let snapshot :=
      VObj [ ("blocks", blocks); ("connections", connections);
             ("memSize", size); ("memBytes", bytes); ("streams", streams) ] in
    called_back (snd (process service callback start)) =
      snapshot :: match callback snapshot with
                  | Ok _ => []
                  | Throw _ => [VNull]
                  end.
Proof.
  unfold getinfo_succeeds, getmempoolinfo_succeeds, liststreams_succeeds, readable.
  unfold process, catch_, then_, this_post, start. simpl.
  destruct (post _ (rpc "getinfo" _)) as [info|e1]; simpl; [|discriminate].
  destruct (body_result_field info "blocks") as [blocks|e1]; simpl; [|discriminate].
  destruct (body_result_field info "connections") as [connections|e1]; simpl;
    [|discriminate].
  destruct (post _ (rpc "getmempoolinfo" _)) as [mempoolinfo|e2]; simpl;
    [|discriminate].
  destruct (body_result_field mempoolinfo "size") as [size|e2]; simpl; [|discriminate].
  destruct (body_result_field mempoolinfo "bytes") as [bytes|e2]; simpl;
    [|discriminate].
  destruct (post _ (rpc "liststreams" _)) as [streams|e3]; simpl; [|discriminate].
  destruct (body_result streams) as [r|e3]; simpl; [|discriminate].
  intros _. exists blocks, connections, size, bytes, r.
  unfold call. simpl. destruct (callback _); reflexivity.
Qed.

(** ** Validation gate *)

Lemma get_object_total json k v k' :
  get json k = Ok v -> exists v', get json k' = Ok v'.
Proof.
  destruct json; simpl; try discriminate; intros _;
    repeat match goal with |- context [String.eqb ?a ?b] =>
      destruct (String.eqb a b) end; eauto.
Qed.

Lemma isResponseValid_missing json :
  get json "blocks" = Ok VUndefined \/ get json "connections" = Ok VUndefined ->
  isResponseValid json = Ok false.
Proof.
  unfold isResponseValid. intros [Hb|Hc].
  - by rewrite Hb.
  - destruct (get_object_total _ _ _ "blocks" Hc) as [b Hb]. rewrite Hb, Hc.
    by destruct (isUndefined b).
Qed.

(** C3: on null, and on a snapshot whose blocks or connections is
    undefined, [processResponse] returns without a single call on the
    service and leaves the chart cache as it was.  The mapper runs only
    after [service.commit()], so it did not run. *)
Theorem processResponse_skips_invalid service content w :
  content = VNull \/
  (exists json,
     parsed content json /\
     (get json "blocks" = Ok VUndefined \/
      get json "connections" = Ok VUndefined)) ->
  processResponse service content w = (Ok tt, w).
Proof.
  intros [->|(json & Hparsed & Hmissing)]; [reflexivity|].
  pose proof (isResponseValid_missing _ Hmissing) as Hvalid.
  assert (Hv : validated json w = (Ok VNull, w)).
  { unfold validated, bind, lift. by rewrite Hvalid. }
  unfold processResponse, convertToJson, bind.
  destruct Hparsed as [[Hty ->]|[Hty Hparse]].
  - destruct content; try discriminate Hty; simpl;
      try (rewrite Hv); reflexivity.
  - destruct (strict_eq_null content) eqn:Hnull.
    { destruct content; discriminate || (exfalso; by apply Hty). }
    apply String.eqb_neq in Hty. rewrite Hty. simpl.
    rewrite Hparse, Hv. reflexivity.
Qed.

(** ** Chart registry *)

Lemma get_or_create_hit id c w :
  isDefined (cached w id) = true ->
  get_or_create id c w = (Ok (cached w id), w).
Proof.
  intros H. unfold get_or_create, bind, cache_lookup. fold (cached w id).
  by rewrite H.
Qed.

Lemma get_or_create_miss id c w :
  isDefined (cached w id) = false ->
  get_or_create id c w =
    (Ok (service_chart id c),
     {| charts := <[id := service_chart id c]> (charts w);
        sink := sink w ++ [SinkChart id c];
        services := services w; log := log w |}).
Proof.
  intros H. unfold get_or_create, bind, cache_lookup. fold (cached w id).
  by rewrite H.
Qed.

Lemma getOrCreateChart_unfold service kind :
  exists c,
    getOrCreateChart service kind
      = get_or_create (getChartId service (chart_suffix kind)) c /\
    chart_id c = getChartId service (chart_suffix kind) /\
    chart_update_every c = update_every service.
Proof. destruct kind; eexists; repeat split. Qed.

Lemma registered_app calls calls' :
  registered (calls ++ calls') = (registered calls ++ registered calls')%list.
Proof.
  induction calls as [|[] calls IH]; simpl; rewrite ?IH; reflexivity.
Qed.

Section Preservation.

Variable P : world -> Prop.

Lemma preserves_ret {A} (a : A) : preserves P (ret a).
Proof. intros w H. exact H. Qed.

Lemma preserves_throw {A} e : preserves P (@throw A e).
Proof. intros w H. exact H. Qed.

Lemma preserves_lift {A} (r : result A) : preserves P (lift r).
Proof. intros w H. exact H. Qed.

Lemma preserves_bind {A B} (m : M A) (k : A -> M B) :
  preserves P m -> (forall a, preserves P (k a)) -> preserves P (bind m k).
Proof.
  intros Hm Hk w H. unfold bind. specialize (Hm w H).
  destruct (m w) as [[a|e] w']; simpl in *; [by apply Hk | assumption].
Qed.

Lemma preserves_forEach_list {S} (f : value -> S -> M S) elems s :
  (forall e s, preserves P (f e s)) -> preserves P (forEach_list f elems s).
Proof.
  intros Hf. revert s. induction elems as [|e elems IH]; intros s; simpl.
  - apply preserves_ret.
  - apply preserves_bind; auto.
Qed.

Lemma preserves_forEach {S} a (f : value -> S -> M S) s :
  (forall e s, preserves P (f e s)) -> preserves P (forEach a f s).
Proof.
  intros Hf. destruct a; simpl;
    auto using preserves_throw, preserves_forEach_list.
Qed.

Lemma preserves_for_each {A} (f : A -> M unit) l :
  (forall a, preserves P (f a)) -> preserves P (for_each f l).
Proof.
  intros Hf. induction l as [|a l IH]; simpl.
  - apply preserves_ret.
  - apply preserves_bind; auto.
Qed.

End Preservation.

Lemma call_sink_consistent c :
  registered [c] = [] -> preserves consistent (call_sink c).
Proof.
  intros Hc w [Hnd Hin]. unfold consistent, cached in *. simpl.
  rewrite registered_app, Hc, app_nil_r. by split.
Qed.

Lemma netdata_log_consistent l : preserves consistent (netdata_log l).
Proof. intros w H. exact H. Qed.

Section HostContract.

(** netdata's [service.chart] answers with the chart object it keeps for the
    id; it has no path that returns undefined. *)
Hypothesis service_chart_defined :
  forall id c, isDefined (service_chart id c) = true.

Lemma cached_insert_eq w id v sk sv lg :
  cached {| charts := <[id := v]> (charts w); sink := sk; services := sv;
            log := lg |} id = v.
Proof. unfold cached. simpl. by rewrite lookup_insert_eq. Qed.

Lemma cached_insert_ne w id id' v sk sv lg :
  id <> id' ->
  cached {| charts := <[id := v]> (charts w); sink := sk; services := sv;
            log := lg |} id' = cached w id'.
Proof. intros H. unfold cached. simpl. by rewrite lookup_insert_ne. Qed.

Lemma get_or_create_consistent id c : preserves consistent (get_or_create id c).
Proof.
  intros w [Hnd Hin]. destruct (isDefined (cached w id)) eqn:Hhit.
  - rewrite get_or_create_hit by assumption. by split.
  - rewrite get_or_create_miss by assumption. split; simpl.
    + rewrite registered_app. simpl. apply NoDup_app. repeat split.
      * assumption.
      * intros id' Hid' ->%list_elem_of_singleton.
        apply Hin in Hid'. congruence.
      * apply NoDup_singleton.
    + intros id'. rewrite registered_app. simpl.
      intros [Hid'| ->%list_elem_of_singleton]%elem_of_app.
      * destruct (decide (id = id')) as [<-|Hne].
        -- rewrite cached_insert_eq. apply service_chart_defined.
        -- rewrite cached_insert_ne by assumption. by apply Hin.
      * rewrite cached_insert_eq. apply service_chart_defined.
Qed.

Lemma getOrCreateChart_consistent service kind :
  preserves consistent (getOrCreateChart service kind).
Proof.
  destruct (getOrCreateChart_unfold service kind) as (c & -> & _).
  apply get_or_create_consistent.
Qed.

Ltac preserve_step :=
  lazymatch goal with
  | |- preserves _ (ret _) => apply preserves_ret
  | |- preserves _ (throw _) => apply preserves_throw
  | |- preserves _ (lift _) => apply preserves_lift
  | |- preserves _ (netdata_log _) => apply netdata_log_consistent
  | |- preserves _ (call_sink _) => apply call_sink_consistent; reflexivity
  | |- preserves _ (getStreamItemsChart ?s ?n) =>
      exact (getOrCreateChart_consistent s (StreamItems n))
  | |- preserves _ (getStreamKeysChart ?s ?n) =>
      exact (getOrCreateChart_consistent s (StreamKeys n))
  | |- preserves _ (getBlocksSizeChart ?s) =>
      exact (getOrCreateChart_consistent s BlocksSize)
  | |- preserves _ (getBlocksMemoryChart ?s) =>
      exact (getOrCreateChart_consistent s BlocksMemory)
  | |- preserves _ (getBlocksChart ?s) =>
      exact (getOrCreateChart_consistent s Blocks)
  | |- preserves _ (getConnectionsChart ?s) =>
      exact (getOrCreateChart_consistent s Connections)
  | |- preserves _ (bind _ _) => apply preserves_bind; [|intros]
  | |- preserves _ (forEach _ _ _) => apply preserves_forEach; intros
  | |- preserves _ (for_each _ _) => apply preserves_for_each; intros
  | |- preserves _ (if ?b then _ else _) => destruct b
  | |- preserves _ (match ?x with _ => _ end) => destruct x
  end.

Ltac preserve := repeat preserve_step.

Lemma parseCharts_consistent service stats :
  preserves consistent (parseCharts service stats).
Proof.
  unfold parseCharts, parseCharts_stream, parseStreamItemsChart,
    parseStreamKeysChart, parseBlocksSizeChart, parseBlocksMemoryChart,
    parseBlocksChart, parseConnectionsChart.
  preserve.
Qed.

Lemma processResponse_consistent service content :
  preserves consistent (processResponse service content).
Proof.
  unfold processResponse, convertToJson, validated, emit.
  preserve. apply parseCharts_consistent.
Qed.

Lemma run_consistent cycles w : consistent w -> consistent (run cycles w).
Proof.
  revert w. induction cycles as [|[service content] cycles IH]; intros w Hw;
    simpl; [assumption|].
  apply IH. by apply processResponse_consistent.
Qed.

Lemma init_consistent : consistent init.
Proof. split; simpl; [apply NoDup_nil_2 | intros id Hid; inversion Hid]. Qed.


(** *** The mapper, chart by chart *)

Lemma extends_refl w : extends w w.
Proof. intros id _. reflexivity. Qed.

Lemma extends_trans w1 w2 w3 : extends w1 w2 -> extends w2 w3 -> extends w1 w3.
Proof.
  intros H12 H23 id Hid. rewrite H23; rewrite H12; auto.
Qed.

Lemma settled_in_extends w w' service e :
  extends w w' -> settled_in w service e ->
  settled_in w' service e /\ realize w' service e = realize w service e.
Proof.
  unfold settled_in, realize, chart_object. intros Hext Hdef.
  rewrite (Hext _ Hdef). by split.
Qed.

Lemma settled_list_extends w w' service l :
  extends w w' -> Forall (settled_in w service) l ->
  Forall (settled_in w' service) l /\
  map (realize w' service) l = map (realize w service) l.
Proof.
  intros Hext. induction 1 as [|e l He _ [IH1 IH2]]; [by split|].
  destruct (settled_in_extends _ _ _ _ Hext He) as [He1 He2].
  split; [by constructor|]. simpl. by rewrite He2, IH2.
Qed.

Lemma getOrCreateChart_spec service kind w :
  exists w',
    getOrCreateChart service kind w = (Ok (chart_object w' service kind), w') /\
    isDefined (chart_object w' service kind) = true /\
    extends w w'.
Proof.
  destruct (getOrCreateChart_unfold service kind) as (c & -> & _).
  unfold chart_object. set (id := getChartId service (chart_suffix kind)).
  destruct (isDefined (cached w id)) eqn:Hhit.
  - exists w. rewrite get_or_create_hit by assumption.
    auto using extends_refl.
  - rewrite get_or_create_miss by assumption. eexists. split; [|split].
    + by rewrite cached_insert_eq.
    + rewrite cached_insert_eq. apply service_chart_defined.
    + intros id' Hid'. apply cached_insert_ne. congruence.
Qed.

(** The shape the six [parse...Chart] functions share. *)
Lemma chart_with_dimensions service kind (r : result (list dimension_value)) dims :
  r = Ok dims ->
  produces service
    (let! c := getOrCreateChart service kind in
     let! dims := lift r in
     ret (getChart c dims))
    (kind, dims).
Proof.
  intros -> w. destruct (getOrCreateChart_spec service kind w) as (w' & Hget & Hd & He).
  exists w'. unfold bind, lift, ret. rewrite Hget. by repeat split.
Qed.

Lemma round53_exact z : (Z.abs z <= 2 ^ 53)%Z -> round53 z = z.
Proof.
  intros Hz. unfold round53. apply Z.leb_le in Hz. by rewrite Hz.
Qed.

Lemma double_of_exact z : (Z.abs z <= 2 ^ 53)%Z -> double_of z = Int z.
Proof.
  intros Hz. unfold double_of. rewrite (round53_exact z Hz).
  assert (Hlt : (2 ^ 53 < 2 ^ 1024)%Z) by reflexivity.
  destruct (2 ^ 1024 <=? Z.abs z)%Z eqn:Hbig; [|reflexivity].
  apply Z.leb_le in Hbig. lia.
Qed.

Lemma number_sub_exact x y :
  (Z.abs x <= 2 ^ 53)%Z -> (Z.abs y <= 2 ^ 53)%Z ->
  (Z.abs (x - y) <= 2 ^ 53)%Z ->
  number_sub (Int x) (Int y) = Int (x - y).
Proof.
  intros Hx Hy Hxy. unfold number_sub, canonical.
  rewrite (double_of_exact x Hx), (double_of_exact y Hy).
  apply (double_of_exact _ Hxy).
Qed.

Lemma js_sub_counts items confirmed :
  is_count items -> is_count confirmed ->
  js_sub (VNum (Int items)) (VNum (Int confirmed))
    = Ok (VNum (Int (items - confirmed))).
Proof.
  unfold is_count. intros Hi Hc. unfold js_sub, ToNumber.
  rewrite number_sub_exact; [reflexivity | lia..].
Qed.

Lemma parseStreamItemsChart_produces service props items confirmed :
  assoc "items" props = VNum (Int items) ->
  assoc "confirmed" props = VNum (Int confirmed) ->
  is_count items -> is_count confirmed ->
  produces service (parseStreamItemsChart service (VObj props))
    (StreamItems (assoc "name" props),
     [ {| dv_name := "confirmed"; dv_value := VNum (Int confirmed) |};
       {| dv_name := "unconfirmed";
          dv_value := VNum (Int (items - confirmed)) |} ]).
Proof.
  intros Hitems Hconfirmed Hi Hc w.
  destruct (getOrCreateChart_spec service (StreamItems (assoc "name" props)) w)
    as (w' & Hget & Hd & He).
  exists w'. unfold parseStreamItemsChart, bind, lift, ret. simpl.
  simpl in Hget. rewrite Hget, Hitems, Hconfirmed, (js_sub_counts _ _ Hi Hc).
  by repeat split.
Qed.

Lemma parseStreamKeysChart_produces service props :
  produces service (parseStreamKeysChart service (VObj props))
    (StreamKeys (assoc "name" props),
     [ {| dv_name := "keys"; dv_value := assoc "keys" props |} ]).
Proof.
  apply (chart_with_dimensions service (StreamKeys (assoc "name" props))
           (table_dimensions dimensions_stream_keys (VObj props))).
  reflexivity.
Qed.

Lemma parseCharts_stream_spec service stream s charts w :
  is_StreamStat stream s ->
  exists w',
    parseCharts_stream service stream charts w =
      (Ok (charts ++ map (realize w' service) (stream_kinds s))%list, w') /\
    Forall (settled_in w' service) (stream_kinds s) /\ extends w w'.
Proof.
  intros (props & -> & Hname & Hsub & Hitems & Hconfirmed & Hkeys & Hi & Hc).
  unfold parseCharts_stream, stream_kinds.
  change (get (VObj props) "subscribed") with (Ok (assoc "subscribed" props)).
  rewrite Hsub. unfold bind at 1. unfold lift.
  destruct (ss_subscribed s); cbn [ToBoolean].
  - destruct (parseStreamItemsChart_produces service props _ _
                Hitems Hconfirmed Hi Hc w) as (w1 & Hparse1 & Hd1 & He1).
    unfold bind at 1. rewrite Hparse1. cbv beta iota.
    destruct (parseStreamKeysChart_produces service props w1)
      as (w2 & Hparse2 & Hd2 & He2).
    unfold bind at 1. rewrite Hparse2. cbv beta iota.
    destruct (settled_in_extends _ _ _ _ He2 Hd1) as [Hd1' Hr1].
    rewrite Hname, Hkeys in *.
    exists w2. unfold ret. rewrite <- Hr1.
    split; [reflexivity|]. split; [|by eapply extends_trans].
    by repeat constructor.
  - exists w. unfold ret. simpl. rewrite app_nil_r.
    auto using extends_refl.
Qed.

Lemma parseCharts_streams_spec service streams typed :
  Forall2 is_StreamStat streams typed ->
  forall charts w,
    exists w',
      forEach_list (parseCharts_stream service) streams charts w =
        (Ok (charts ++ map (realize w' service) (flat_map stream_kinds typed))%list,
         w') /\
      Forall (settled_in w' service) (flat_map stream_kinds typed) /\
      extends w w'.
Proof.
  induction 1 as [|stream s streams typed Hstream _ IH]; intros charts w; simpl.
  - exists w. unfold ret. rewrite app_nil_r. auto using extends_refl.
  - destruct (parseCharts_stream_spec service stream s charts w Hstream)
      as (w1 & Hhead & Hd1 & He1).
    unfold bind. rewrite Hhead.
    destruct (IH (charts ++ map (realize w1 service) (stream_kinds s))%list w1)
      as (w2 & Htail & Hd2 & He2).
    rewrite Htail. exists w2.
    destruct (settled_list_extends _ _ _ _ He2 Hd1) as [Hd1' Hr1].
    split; [|split; [|by eapply extends_trans]].
    + rewrite map_app, Hr1, <- app_assoc. reflexivity.
    + apply Forall_app. by split.
Qed.

Lemma parseBlocksSizeChart_produces service props :
  produces service (parseBlocksSizeChart service (VObj props))
    (BlocksSize,
     [ {| dv_name := "memSize"; dv_value := assoc "memSize" props |} ]).
Proof.
  apply (chart_with_dimensions service BlocksSize
           (table_dimensions dimensions_blocksSize (VObj props))).
  reflexivity.
Qed.

Lemma parseBlocksMemoryChart_produces service props :
  produces service (parseBlocksMemoryChart service (VObj props))
    (BlocksMemory,
     [ {| dv_name := "memBytes"; dv_value := assoc "memBytes" props |} ]).
Proof.
  apply (chart_with_dimensions service BlocksMemory
           (table_dimensions dimensions_blocksMemory (VObj props))).
  reflexivity.
Qed.

Lemma parseBlocksChart_produces service props :
  produces service (parseBlocksChart service (VObj props))
    (Blocks,
     [ {| dv_name := "blocks"; dv_value := assoc "blocks" props |} ]).
Proof.
  apply (chart_with_dimensions service Blocks
           (table_dimensions dimensions_blocks (VObj props))).
  reflexivity.
Qed.

Lemma parseConnectionsChart_produces service props :
  produces service (parseConnectionsChart service (VObj props))
    (Connections,
     [ {| dv_name := "connections"; dv_value := assoc "connections" props |} ]).
Proof.
  apply (chart_with_dimensions service Connections
           (table_dimensions dimensions_connections (VObj props))).
  reflexivity.
Qed.

Lemma settled_in_hit w service e :
  settled_in w service e ->
  getOrCreateChart service (fst e) w
    = (Ok (chart_object w service (fst e)), w).
Proof.
  intros Hd. destruct (getOrCreateChart_unfold service (fst e)) as (c & -> & _).
  by apply get_or_create_hit.
Qed.

(** The display name of each dimension the mapper fills: the sample is
    keyed by the dimension id, and the chart registered for it shows that
    dimension under the name the interface uses. *)
Lemma dimension_display_names :
  map (fun d => (dim_id (snd d), dim_name (snd d))) (build_dim dimensions_blocksSize)
    = [("memSize", "size")] /\
  map (fun d => (dim_id (snd d), dim_name (snd d))) (build_dim dimensions_blocksMemory)
    = [("memBytes", "memory")] /\
  map (fun d => (dim_id (snd d), dim_name (snd d))) (build_dim dimensions_blocks)
    = [("blocks", "blocks")] /\
  map (fun d => (dim_id (snd d), dim_name (snd d))) (build_dim dimensions_connections)
    = [("connections", "connections")] /\
  map (fun d => (dim_id (snd d), dim_name (snd d))) (build_dim dimensions_stream_items)
    = [("confirmed", "confirmed"); ("unconfirmed", "unconfirmed")] /\
  map (fun d => (dim_id (snd d), dim_name (snd d))) (build_dim dimensions_stream_keys)
    = [("keys", "keys")].
Proof. repeat split. Qed.

Lemma realize_stream_kinds w service node s :
  name service = VStr node ->
  map (realize w service) (stream_kinds s) = stream_charts w node s.
Proof.
  intros Hname. unfold stream_kinds, stream_charts.
  destruct (ss_subscribed s); [|reflexivity].
  unfold realize, chart_object, getChartId, getChart. simpl.
  rewrite Hname. reflexivity.
Qed.

Lemma realize_snapshot_kinds w service node snapshot typed :
  name service = VStr node ->
  map (realize w service) (snapshot_kinds snapshot typed)
  = mapToCharts w node snapshot typed.
Proof.
  intros Hname. unfold snapshot_kinds, mapToCharts. rewrite map_app. f_equal.
  - induction typed as [|s typed IH]; [reflexivity|].
    cbn [flat_map]. by rewrite map_app, IH, (realize_stream_kinds _ _ node).
  - unfold realize, chart_object, getChartId, getChart. simpl.
    rewrite Hname. reflexivity.
Qed.

Lemma settled_stream_kinds w service node typed :
  name service = VStr node ->
  Forall (settled_in w service) (flat_map stream_kinds typed) ->
  Forall (fun s =>
            ss_subscribed s = true ->
            getStreamItemsChart service (VStr (ss_name s)) w
              = (Ok (cached w (node +:+ ".stream." +:+ ss_name s +:+ ".items")), w) /\
            getStreamKeysChart service (VStr (ss_name s)) w
              = (Ok (cached w (node +:+ ".stream." +:+ ss_name s +:+ ".key")), w))
         typed.
Proof.
  intros Hname. induction typed as [|s typed IH]; [constructor|].
  cbn [flat_map]. intros [Hs Hrest]%Forall_app.
  constructor; [|by apply IH].
  intros Hsub. unfold stream_kinds in Hs. rewrite Hsub in Hs.
  inversion Hs as [|? ? Hitems Hs']. inversion Hs' as [|? ? Hkeys _].
  apply settled_in_hit in Hitems, Hkeys.
  unfold chart_object, getChartId in Hitems, Hkeys. simpl in Hitems, Hkeys.
  rewrite Hname in Hitems, Hkeys. by split.
Qed.


End HostContract.

(** ** Stats mapper *)

Lemma getOrCreateChart_returns service kind w :
  exists chart w',
    getOrCreateChart service kind w = (Ok chart, w') /\
    cached w' (getChartId service (chart_suffix kind)) = chart.
Proof.
  destruct (getOrCreateChart_unfold service kind) as (c & -> & _).
  destruct (isDefined (cached w (getChartId service (chart_suffix kind))))
    eqn:Hhit.
  - rewrite get_or_create_hit by assumption. eauto.
  - rewrite get_or_create_miss by assumption. do 2 eexists.
    split; [reflexivity|]. apply cached_insert_eq.
Qed.

(** What a constructor returns is what the cache then holds under the
    chart's id, and no other id of the cache changes. *)
Lemma getOrCreateChart_pinned service kind w :
  exists w',
    getOrCreateChart service kind w
      = (Ok (cached w' (getChartId service (chart_suffix kind))), w') /\
    forall id', id' <> getChartId service (chart_suffix kind) ->
                cached w' id' = cached w id'.
Proof.
  destruct (getOrCreateChart_unfold service kind) as (c & -> & _).
  destruct (isDefined (cached w (getChartId service (chart_suffix kind))))
    eqn:Hhit.
  - rewrite get_or_create_hit by assumption. eauto.
  - rewrite get_or_create_miss by assumption.
    match goal with |- context [(_, ?w1)] => exists w1 end. split.
    + by rewrite cached_insert_eq.
    + intros id' Hne. apply cached_insert_ne. congruence.
Qed.

Lemma parseStreamItemsChart_converted service node props sname x y w :
  name service = VStr node ->
  assoc "name" props = VStr sname ->
  ToNumber (assoc "items" props) = Ok x ->
  ToNumber (assoc "confirmed" props) = Ok y ->
  exists w',
    parseStreamItemsChart service (VObj props) w =
      (Ok {| cv_chart := cached w' (node +:+ ".stream." +:+ sname +:+ ".items");
             cv_dimensions :=
               [ {| dv_name := "confirmed";
                    dv_value := assoc "confirmed" props |};
                 {| dv_name := "unconfirmed";
                    dv_value := VNum (number_sub x y) |} ] |},
       w') /\
    forall id', id' <> node +:+ ".stream." +:+ sname +:+ ".items" ->
                cached w' id' = cached w id'.
Proof.
  intros Hname Hsname Hx Hy.
  destruct (getOrCreateChart_pinned service (StreamItems (VStr sname)) w)
    as (w' & Hget & Hframe).
  unfold getChartId in Hget, Hframe. simpl in Hget, Hframe.
  rewrite Hname in Hget, Hframe.
  exists w'. split; [|exact Hframe].
  unfold parseStreamItemsChart, bind, lift, ret, js_sub.
  change (get (VObj props) "items") with (Ok (assoc "items" props)).
  change (get (VObj props) "confirmed") with (Ok (assoc "confirmed" props)).
  change (get (VObj props) "name") with (Ok (assoc "name" props)).
  cbv beta iota. rewrite Hsname.
  rewrite Hget, Hx, Hy. reflexivity.
Qed.

Lemma parseStreamKeysChart_pinned service node props sname w :
  name service = VStr node ->
  assoc "name" props = VStr sname ->
  exists w',
    parseStreamKeysChart service (VObj props) w =
      (Ok {| cv_chart := cached w' (node +:+ ".stream." +:+ sname +:+ ".key");
             cv_dimensions :=
               [ {| dv_name := "keys"; dv_value := assoc "keys" props |} ] |},
       w') /\
    forall id', id' <> node +:+ ".stream." +:+ sname +:+ ".key" ->
                cached w' id' = cached w id'.
Proof.
  intros Hname Hsname.
  destruct (getOrCreateChart_pinned service (StreamKeys (VStr sname)) w)
    as (w' & Hget & Hframe).
  unfold getChartId in Hget, Hframe. simpl in Hget, Hframe.
  rewrite Hname in Hget, Hframe.
  exists w'. split; [|exact Hframe].
  unfold parseStreamKeysChart, bind, lift, ret.
  change (get (VObj props) "name") with (Ok (assoc "name" props)).
  cbv beta iota. rewrite Hsname.
  rewrite Hget. reflexivity.
Qed.

(** C6, as amended: for a stream entry and a service with string names and
    integers 2^53 >= items >= confirmed >= 0, the items chart carries
    confirmed and unconfirmed = items - confirmed, which is not negative;
    nothing clamps the difference, and a stream with confirmed 7 and
    items 5 yields -2. *)
Theorem unconfirmed_is_items_minus_confirmed :
  (forall service node props sname items confirmed w,
     name service = VStr node ->
     assoc "name" props = VStr sname ->
     assoc "items" props = VNum (Int items) ->
     assoc "confirmed" props = VNum (Int confirmed) ->
     (0 <= confirmed <= items)%Z ->
     (items <= 2 ^ 53)%Z ->
     exists w' unconfirmed,
       parseStreamItemsChart service (VObj props) w =
         (Ok {| cv_chart :=
                  cached w' (node +:+ ".stream." +:+ sname +:+ ".items");
                cv_dimensions :=
                  [ {| dv_name := "confirmed";
                       dv_value := VNum (Int confirmed) |};
                    {| dv_name := "unconfirmed";
                       dv_value := VNum (Int unconfirmed) |} ] |},
          w') /\
       unconfirmed = (items - confirmed)%Z /\
       (0 <= unconfirmed)%Z) /\
  (exists props items confirmed unconfirmed,
     assoc "name" props = VStr "s1" /\
     assoc "items" props = VNum (Int items) /\
     assoc "confirmed" props = VNum (Int confirmed) /\
     (confirmed > items)%Z /\
     (unconfirmed < 0)%Z /\
     forall service node w,
       name service = VStr node ->
       exists w',
         parseStreamItemsChart service (VObj props) w =
           (Ok {| cv_chart := cached w' (node +:+ ".stream.s1.items");
                  cv_dimensions :=
                    [ {| dv_name := "confirmed";
                         dv_value := VNum (Int confirmed) |};
                      {| dv_name := "unconfirmed";
                         dv_value := VNum (Int unconfirmed) |} ] |},
            w')).
Proof.
  split.
  - intros service node props sname items confirmed w Hname Hsname
      Hitems Hconfirmed Horder Hbound.
    destruct (parseStreamItemsChart_converted service node props sname
                (Int items) (Int confirmed) w Hname Hsname)
      as (w' & Hparse & _).
    { by rewrite Hitems. }
    { by rewrite Hconfirmed. }
    exists w', (items - confirmed)%Z.
    rewrite Hparse, Hconfirmed, number_sub_exact by lia.
    repeat split; lia.
  - exists [("name", VStr "s1"); ("items", VNum (Int 5));
            ("confirmed", VNum (Int 7))], 5%Z, 7%Z, (-2)%Z.
    repeat split; try lia.
    intros service node w Hname.
    destruct (parseStreamItemsChart_converted service node
                [("name", VStr "s1"); ("items", VNum (Int 5));
                 ("confirmed", VNum (Int 7))] "s1" (Int 5) (Int 7) w Hname)
      as (w' & Hparse & _); try reflexivity.
    exists w'. exact Hparse.
Qed.

(** ** Chart identity *)

Lemma string_app_list a b :
  String.list_ascii_of_string (a +:+ b)
  = (String.list_ascii_of_string a ++ String.list_ascii_of_string b)%list.
Proof. induction a as [|c a IH]; [reflexivity|]. cbn. by rewrite <- IH. Qed.

Lemma string_app_inv_tail a b t : a +:+ t = b +:+ t -> a = b.
Proof.
  intros H. apply (f_equal String.list_ascii_of_string) in H.
  rewrite !string_app_list in H. apply app_inv_tail in H.
  apply (f_equal String.string_of_list_ascii) in H.
  by rewrite !String.string_of_list_ascii_of_string in H.
Qed.

Lemma key_items_differ a b : a +:+ ".key" <> b +:+ ".items".
Proof.
  intros H. apply (f_equal String.list_ascii_of_string) in H.
  rewrite !string_app_list in H. apply (f_equal (@rev _)) in H.
  rewrite !rev_app_distr in H. discriminate H.
Qed.

Lemma getChartId_inj service a b :
  getChartId service a = getChartId service b -> a = b.
Proof.
  unfold getChartId. intros H.
  apply String.app_inj in H. by apply String.app_inj in H.
Qed.

Lemma chart_suffix_same k1 k2 :
  chart_suffix k1 = chart_suffix k2 -> same_chart k1 k2.
Proof.
  destruct k1, k2; simpl; intros H; try exact I; try discriminate H;
    apply String.app_inj in H.
  - by apply string_app_inv_tail in H.
  - by apply key_items_differ in H.
  - symmetry in H. by apply key_items_differ in H.
  - by apply string_app_inv_tail in H.
Qed.

(** C9: an id is the node name, a dot and the suffix of the kind.  For one
    node and two different stream names, the four node-level charts and the
    items and keys charts of the two streams have eight different ids; and
    two kinds have the same id only when they are the same chart. *)
Theorem chart_ids_distinct service (s1 s2 : string) :
  s1 <> s2 ->
  (forall suffix,
     getChartId service suffix = ToString (name service) +:+ "." +:+ suffix) /\
  (forall kind,
     exists c,
       getOrCreateChart service kind
         = get_or_create (getChartId service (chart_suffix kind)) c /\
       chart_id c = getChartId service (chart_suffix kind)) /\
  (forall k1 k2,
     getChartId service (chart_suffix k1) = getChartId service (chart_suffix k2) ->
     same_chart k1 k2) /\
  NoDup (map (fun kind => getChartId service (chart_suffix kind))
           [ BlocksSize; BlocksMemory; Blocks; Connections;
             StreamItems (VStr s1); StreamKeys (VStr s1);
             StreamItems (VStr s2); StreamKeys (VStr s2) ]).
Proof.
  intros Hne.
  assert (Hsame : forall k1 k2,
    getChartId service (chart_suffix k1) = getChartId service (chart_suffix k2) ->
    same_chart k1 k2).
  { intros k1 k2 H. by apply chart_suffix_same, (getChartId_inj service). }
  repeat split.
  - intros kind. destruct (getOrCreateChart_unfold service kind) as (c & ? & ? & _).
    eauto.
  - exact Hsame.
  - assert (Hne' : s2 <> s1) by congruence.
    repeat (apply NoDup_cons_2;
      [ rewrite ?not_elem_of_cons; repeat split;
        try (apply not_elem_of_nil);
        intros H; apply Hsame in H; simpl in H; contradiction | ]).
    apply NoDup_nil_2.
Qed.

(** * Further properties *)

(** ** Orchestrator, entry by entry *)

Lemma assoc_set_eq k v props : assoc k (assoc_set k v props) = v.
Proof.
  induction props as [|[k' v'] props IH]; simpl.
  - by rewrite String.eqb_refl.
  - destruct (String.eqb k k') eqn:Hk; simpl; rewrite ?String.eqb_refl, ?Hk; auto.
Qed.

Lemma assoc_set_ne k k' v props :
  k <> k' -> assoc k (assoc_set k' v props) = assoc k props.
Proof.
  intros Hne. induction props as [|[k'' v''] props IH]; simpl.
  - apply String.eqb_neq in Hne. by rewrite Hne.
  - destruct (String.eqb k' k'') eqn:Hk; simpl.
    + apply String.eqb_eq in Hk as <-.
      apply String.eqb_neq in Hne. by rewrite Hne.
    + by rewrite IH.
Qed.

Lemma configure_server_registers props added w :
  exists w',
    configure_server (VObj props) added w = (Ok (added + 1)%Z, w') /\
    services w' = (services w ++ [options_of (VObj props)])%list /\
    charts w' = charts w /\ sink w' = sink w.
Proof.
  unfold configure_server, default_update_every, options_of, field. simpl.
  destruct (isUndefined (assoc "update_every" props)); simpl;
    unfold bind, lift, ret; simpl; rewrite areUndefined_undefined; simpl;
    rewrite ?assoc_set_ne by discriminate;
    eexists; repeat split.
Qed.

Lemma configure_servers_register entries :
  Forall (fun e => exists props, e = VObj props) entries ->
  forall added w,
    exists w',
      forEach_list configure_server entries added w
        = (Ok (added + Z.of_nat (length entries))%Z, w') /\
      services w' = (services w ++ map options_of entries)%list /\
      charts w' = charts w /\ sink w' = sink w.
Proof.
  induction 1 as [|e entries [props ->] _ IH]; intros added w.
  - exists w. simpl. unfold ret. rewrite app_nil_r.
    repeat split. f_equal. f_equal. lia.
  - destruct (configure_server_registers props added w)
      as (w1 & Hhead & Hs1 & Hc1 & Hk1).
    destruct (IH (added + 1)%Z w1) as (w2 & Htail & Hs2 & Hc2 & Hk2).
    exists w2. cbn [forEach_list]. unfold bind. rewrite Hhead, Htail.
    rewrite Hs2, Hs1, Hc2, Hc1, Hk2, Hk1, <- app_assoc.
    repeat split. f_equal. f_equal. simpl length. lia.
Qed.

(** X1: [areUndefined] answers undefined for every array, with or without
    an undefined element, so a test on it always takes the else branch. *)
Theorem areUndefined_never_truthy values :
  areUndefined values = VUndefined /\
  ToBoolean (areUndefined values) = false.
Proof. rewrite areUndefined_undefined. by split. Qed.


(** X3: a [servers] that is defined and is not an array makes [configure]
    throw before anything is registered. *)
Theorem configure_throws_on_non_array config servers w :
  get config "servers" = Ok servers ->
  servers <> VUndefined ->
  (forall entries, servers <> VArr entries) ->
  exists e, configure config w = (Throw e, w).
Proof.
  intros Hservers Hdefined Harray.
  unfold configure, bind, lift. rewrite Hservers.
  destruct servers; simpl; try (eexists; reflexivity).
  - by destruct Hdefined.
  - by destruct (Harray elems).
Qed.


(** X5: the defaulting step of [configure] on an object entry: afterwards
    [update_every] reads as the entry's own value when it had one and as the
    module's otherwise, and every other property reads as before. *)
Theorem default_update_every_object props :
  exists props',
    default_update_every (VObj props) = Ok (VObj props') /\
    assoc "update_every" props' =
      (if isUndefined (assoc "update_every" props)
       then module_update_every
       else assoc "update_every" props) /\
    forall k, k <> "update_every" -> assoc k props' = assoc k props.
Proof.
  unfold default_update_every. simpl.
  destruct (isUndefined (assoc "update_every" props)) eqn:Hu; simpl.
  - eexists. split; [reflexivity|]. split.
    + apply assoc_set_eq.
    + intros k Hk. by apply assoc_set_ne.
  - eexists. split; [reflexivity|]. by split.
Qed.

(** ** Collector, end to end *)

(** X6: when the three calls go through, [process] posts the three requests
    in order and calls the callback with the snapshot: blocks and
    connections of getinfo, size and bytes of getmempoolinfo under memSize
    and memBytes, the result of liststreams under streams.  It logs nothing,
    unless the callback throws: then what it threw is logged and the
    callback is called again, with null. *)
Theorem process_delivers_snapshot service callback
    info mempoolinfo streams blocks connections size bytes result :
  post (process_options service) (rpc "getinfo" (chain service))
    = Resolved info ->
  body_result_field info "blocks" = Ok blocks ->
  body_result_field info "connections" = Ok connections ->
  post (process_options service) (rpc "getmempoolinfo" (chain service))
    = Resolved mempoolinfo ->
  body_result_field mempoolinfo "size" = Ok size ->
  body_result_field mempoolinfo "bytes" = Ok bytes ->
  post (process_options service) (rpc "liststreams" (chain service))
    = Resolved streams ->
  body_result streams = Ok result ->
  let snapshot :=
    VObj [ ("blocks", blocks); ("connections", connections);
           ("memSize", size); ("memBytes", bytes); ("streams", result) ] in
  let c := snd (process service callback start) in
  posted c = the_requests service /\
  data c = snapshot /\
  called_back c = snapshot :: match callback snapshot with
                              | Ok _ => []
                              | Throw _ => [VNull]
                              end /\
  debugged c = match callback snapshot with
               | Ok _ => []
               | Throw e => [e]
               end.
Proof.
  intros H1 Hb Hc H2 Hs Hy H3 Hr.
  unfold process, catch_, then_, this_post, start, call. simpl.
  rewrite H1. simpl. rewrite Hb. simpl. rewrite Hc. simpl.
  rewrite H2. simpl. rewrite Hs. simpl. rewrite Hy. simpl.
  rewrite H3. simpl. rewrite Hr. simpl.
  destruct (callback _); repeat split.
Qed.


(** X8: a reply to getinfo whose body is not JSON ends the cycle with null
    after that one request, whatever its status.  With a status in
    [200, 299] the promise resolves, and what fails is the handler, reading
    [blocks] of an undefined [body.result]: the value logged is that
    TypeError, not the parse error. *)
Theorem unparsable_reply_ends_cycle service callback
    statusCode statusMessage headers chunks error :
  http_request (process_options service) (rpc "getinfo" (chain service))
    = NetResponse statusCode statusMessage headers chunks ->
  JSON_parse (VStr (String.concat "" chunks)) = Throw error ->
  let c := snd (process service callback start) in
  called_back c = [VNull] /\
  posted c = [rpc "getinfo" (chain service)] /\
  (is_2xx statusCode ->
   exists msg, debugged c = [TypeError msg] /\
               getinfo_succeeds service = false).
Proof.
  intros Hreq Hparse.
  unfold getinfo_succeeds, process, catch_, then_, this_post, start, post.
  simpl. rewrite Hreq, Hparse.
  destruct ((statusCode <? 200)%Z || (statusCode >? 299)%Z) eqn:Hcode; simpl.
  - repeat split. unfold is_2xx. intros Hrange. exfalso.
    apply orb_true_iff in Hcode as [H|H]; lia.
  - repeat split. intros _. eexists. split; reflexivity.
Qed.

(** ** Validation, case by case *)

Lemma isDefined_spec v : isDefined v = true <-> v <> VUndefined.
Proof. destruct v; simpl; split; (congruence || discriminate || auto). Qed.

(** X9: [isResponseValid] answers true exactly when blocks and connections
    both read as something other than undefined (null counts as defined),
    and throws exactly on undefined and null. *)
Theorem isResponseValid_iff json :
  (isResponseValid json = Ok true <->
   exists blocks connections,
     get json "blocks" = Ok blocks /\ get json "connections" = Ok connections /\
     blocks <> VUndefined /\ connections <> VUndefined) /\
  ((exists e, isResponseValid json = Throw e) <->
   json = VUndefined \/ json = VNull).
Proof.
  unfold isResponseValid. split.
  - destruct (get json "blocks") as [b|e] eqn:Hb.
    + destruct (get_object_total _ _ _ "connections" Hb) as [c Hc]. rewrite Hc.
      destruct (isUndefined b) eqn:Hub.
      * apply isUndefined_spec in Hub as ->. split; [discriminate|].
        intros (b' & c' & Hb' & _ & Hne & _). congruence.
      * split.
        -- intros [= Hd]. exists b, c. repeat split.
           ++ intros ->. discriminate Hub.
           ++ by apply isDefined_spec.
        -- intros (b' & c' & _ & [= <-] & _ & Hne).
           f_equal. by apply isDefined_spec.
    + split; [discriminate|]. intros (b' & c' & Hb' & _). discriminate Hb'.
  - destruct json; simpl;
      repeat match goal with
             | |- context [isUndefined ?x] => destruct (isUndefined x)
             end;
      (split;
       [ intros [e He]; first [discriminate He | auto]
       | intros [H|H]; first [discriminate H | eauto] ]).
Qed.

(** X10: what [convertToJson] returns is null or the snapshot itself, the
    content or its parse, and then the snapshot passes [isResponseValid] and
    the world is as it was; in no case are charts, sink or services
    touched. *)
Theorem convertToJson_sound content w v w' :
  convertToJson content w = (Ok v, w') ->
  charts w' = charts w /\ sink w' = sink w /\ services w' = services w /\
  (v = VNull \/
   (w' = w /\ parsed content v /\ isResponseValid v = Ok true)).
Proof.
  assert (Hvalidated : forall json,
    validated json w = (Ok v, w') ->
    w' = w /\ (v = VNull \/ (v = json /\ isResponseValid json = Ok true))).
  { intros json. unfold validated, bind, lift, ret.
    destruct (isResponseValid json) as [[|]|e]; intros [= <- <-]; auto. }
  unfold convertToJson.
  destruct (strict_eq_null content) eqn:Hnull.
  { intros [= <- <-]. auto. }
  destruct (String.eqb (typeof content) "object") eqn:Hty; simpl.
  - intros H. apply Hvalidated in H as [-> [->|[-> Hv]]]; auto.
    apply String.eqb_eq in Hty. repeat split; auto. right.
    repeat split; auto. by left.
  - apply String.eqb_neq in Hty.
    destruct (JSON_parse content) as [json|error] eqn:Hparse.
    + intros H. apply Hvalidated in H as [-> [->|[-> Hv]]]; auto.
      repeat split; auto. right. repeat split; auto. by right.
    + unfold bind, lift. destruct (get error "message"); simpl;
        [|discriminate]. intros [= <- <-]. simpl. auto.
Qed.

(** X11: content that is not an object and does not parse is ignored:
    [processResponse] returns with one error line logged, carrying the
    message of the parse error, and nothing else changed. *)
Theorem processResponse_ignores_invalid_json service content error message w :
  typeof content <> "object" ->
  JSON_parse content = Throw error ->
  get error "message" = Ok message ->
  processResponse service content w =
    (Ok tt,
     {| charts := charts w; sink := sink w; services := services w;
        log := log w ++
          [LogError
             ("multichain: Got a response, but it is not valid JSON. Ignoring. Error: "
                +:+ ToString message)] |}).
Proof.
  intros Hty Hparse Hmessage.
  unfold processResponse, convertToJson.
  assert (Hnull : strict_eq_null content = false).
  { destruct content; try reflexivity. by destruct Hty. }
  apply String.eqb_neq in Hty.
  unfold bind at 1. rewrite Hnull, Hty. simpl. rewrite Hparse.
  unfold bind, lift. rewrite Hmessage. reflexivity.
Qed.

(** X12: content that parses to null, as the JSON text null does, is not
    ignored: the validity check reads [blocks] of null, and
    [convertToJson] and [processResponse] throw, before any call on the
    service. *)
Theorem processResponse_throws_on_null_json service content w :
  typeof content <> "object" ->
  JSON_parse content = Ok VNull ->
  exists e,
    convertToJson content w = (Throw e, w) /\
    processResponse service content w = (Throw e, w).
Proof.
  intros Hty Hparse.
  assert (Hnull : strict_eq_null content = false).
  { destruct content; try reflexivity. by destruct Hty. }
  apply String.eqb_neq in Hty.
  unfold processResponse, convertToJson.
  unfold bind at 1. rewrite Hnull, Hty. simpl. rewrite Hparse.
  eexists. split; reflexivity.
Qed.

(** ** What a cycle keeps *)

Section CyclePreservation.

Variable P : world -> Prop.
Variable service : service.

Hypothesis P_getter : forall kind, preserves P (getOrCreateChart service kind).
Hypothesis P_log : forall l, preserves P (netdata_log l).
Hypothesis P_sink : forall c, registered [c] = [] -> preserves P (call_sink c).

Ltac keep_step :=
  lazymatch goal with
  | |- preserves _ (ret _) => apply preserves_ret
  | |- preserves _ (throw _) => apply preserves_throw
  | |- preserves _ (lift _) => apply preserves_lift
  | |- preserves _ (netdata_log _) => apply P_log
  | |- preserves _ (call_sink _) => apply P_sink; reflexivity
  | |- preserves _ (getStreamItemsChart _ ?n) => exact (P_getter (StreamItems n))
  | |- preserves _ (getStreamKeysChart _ ?n) => exact (P_getter (StreamKeys n))
  | |- preserves _ (getBlocksSizeChart _) => exact (P_getter BlocksSize)
  | |- preserves _ (getBlocksMemoryChart _) => exact (P_getter BlocksMemory)
  | |- preserves _ (getBlocksChart _) => exact (P_getter Blocks)
  | |- preserves _ (getConnectionsChart _) => exact (P_getter Connections)
  | |- preserves _ (bind _ _) => apply preserves_bind; [|intros]
  | |- preserves _ (forEach _ _ _) => apply preserves_forEach; intros
  | |- preserves _ (for_each _ _) => apply preserves_for_each; intros
  | |- preserves _ (if ?b then _ else _) => destruct b
  | |- preserves _ (match ?x with _ => _ end) => destruct x
  end.

Lemma parseCharts_preserves stats : preserves P (parseCharts service stats).
Proof.
  unfold parseCharts, parseCharts_stream, parseStreamItemsChart,
    parseStreamKeysChart, parseBlocksSizeChart, parseBlocksMemoryChart,
    parseBlocksChart, parseConnectionsChart.
  repeat keep_step.
Qed.

Lemma convertToJson_preserves content : preserves P (convertToJson content).
Proof. unfold convertToJson, validated. repeat keep_step. Qed.

Lemma processResponse_preserves content :
  preserves P (processResponse service content).
Proof.
  unfold processResponse, emit. repeat keep_step.
  - apply convertToJson_preserves.
  - apply parseCharts_preserves.
Qed.

End CyclePreservation.

Lemma run_preserves (P : world -> Prop) :
  (forall service kind, preserves P (getOrCreateChart service kind)) ->
  (forall l, preserves P (netdata_log l)) ->
  (forall c, registered [c] = [] -> preserves P (call_sink c)) ->
  forall cycles w, P w -> P (run cycles w).
Proof.
  intros Hg Hl Hs cycles.
  induction cycles as [|[service content] cycles IH]; intros w Hw; simpl;
    [assumption|].
  apply IH. apply processResponse_preserves; auto.
Qed.

Lemma getOrCreateChart_definition service kind :
  exists c,
    getOrCreateChart service kind
      = get_or_create (getChartId service (chart_suffix kind)) c /\
    registered_for service
      (SinkChart (getChartId service (chart_suffix kind)) c).
Proof. destruct kind; eexists; repeat split; eauto. Qed.

Lemma getOrCreateChart_extends w0 service kind :
  preserves (extends w0) (getOrCreateChart service kind).
Proof.
  destruct (getOrCreateChart_unfold service kind) as (c & -> & _).
  set (id := getChartId service (chart_suffix kind)).
  intros w Hw. destruct (isDefined (cached w id)) eqn:Hhit.
  - by rewrite get_or_create_hit.
  - rewrite get_or_create_miss by assumption. simpl.
    intros id' Hid'. rewrite cached_insert_ne; [by apply Hw|].
    intros <-. rewrite (Hw _ Hid') in Hhit. congruence.
Qed.

(** X13: a chart object found in the cache is still there, the same, after
    any number of cycles for any services: nothing overwrites or removes a
    cached chart. *)
Theorem cache_never_overwritten cycles w id :
  isDefined (cached w id) = true ->
  cached (run cycles w) id = cached w id.
Proof.
  revert id. change (extends w (run cycles w)).
  apply run_preserves.
  - apply getOrCreateChart_extends.
  - intros l w' Hw'. exact Hw'.
  - intros c _ w' Hw'. exact Hw'.
  - intros id _. reflexivity.
Qed.

(** X14: from the start of the process on, the cache holds exactly the ids
    that were registered with the sink: no chart is registered without
    being cached, none is cached without having been registered. *)
Theorem cache_keys_are_registered_ids cycles id :
  id ∈ registered (sink (run cycles init)) <->
  is_Some (charts (run cycles init) !! id).
Proof.
  revert id.
  apply (run_preserves (fun w =>
    forall id, id ∈ registered (sink w) <-> is_Some (charts w !! id))).
  - intros service kind w Hw.
    destruct (getOrCreateChart_unfold service kind) as (c & -> & _).
    set (id := getChartId service (chart_suffix kind)).
    destruct (isDefined (cached w id)) eqn:Hhit.
    + by rewrite get_or_create_hit.
    + rewrite get_or_create_miss by assumption. simpl. intros id'.
      rewrite registered_app, elem_of_app. simpl.
      rewrite list_elem_of_singleton, lookup_insert_is_Some, Hw. split.
      * intros [H| ->]; [|by left].
        destruct (decide (id = id')); [by left | by right].
      * intros [<-|[_ H]]; [by right | by left].
  - intros l w Hw. exact Hw.
  - intros c Hc w Hw id. simpl. rewrite registered_app, Hc, app_nil_r.
    apply Hw.
  - intros id. simpl. rewrite lookup_empty. split.
    + intros H. inversion H.
    + intros [x H]. discriminate H.
Qed.

(** X15: the charts a cycle registers are charts of the cycle's service:
    each definition carries the id it is registered under, an id of that
    service, the service's interval, priority 60001 and context
    multichain. *)
Theorem cycle_registers_own_charts service content w :
  exists added,
    sink (snd (processResponse service content w)) = (sink w ++ added)%list /\
    Forall (registered_for service) added.
Proof.
  apply (processResponse_preserves
           (fun w' => exists added,
              sink w' = (sink w ++ added)%list /\
              Forall (registered_for service) added)).
  - intros kind w' (added & Hs & Hf).
    destruct (getOrCreateChart_definition service kind) as (c & -> & Hc).
    destruct (isDefined (cached w' (getChartId service (chart_suffix kind))))
      eqn:Hhit.
    + rewrite get_or_create_hit by assumption. eauto.
    + rewrite get_or_create_miss by assumption. simpl.
      exists (added ++ [SinkChart (getChartId service (chart_suffix kind)) c])%list.
      rewrite Hs, <- app_assoc. split; [reflexivity|].
      apply Forall_app. split; [assumption|]. by constructor.
  - intros l w' H. exact H.
  - intros c Hc w' (added & Hs & Hf). simpl.
    exists (added ++ [c])%list. rewrite Hs, <- app_assoc.
    split; [reflexivity|]. apply Forall_app. split; [assumption|].
    constructor; [|constructor]. by destruct c.
  - exists []. by rewrite app_nil_r.
Qed.

(** ** Samples *)

Lemma samples_app calls calls' :
  samples (calls ++ calls') = (samples calls ++ samples calls')%list.
Proof. apply List.filter_app. Qed.

Lemma samples_frames charts : samples (flat_map frame charts) = flat_map frame charts.
Proof.
  induction charts as [|c charts IH]; [reflexivity|].
  cbn [flat_map]. rewrite samples_app, IH. f_equal.
  unfold frame, samples. simpl. f_equal.
  induction (cv_dimensions c) as [|d dims IHd]; [reflexivity|].
  simpl. by rewrite IHd.
Qed.

Lemma for_each_set dims w :
  for_each (fun d => call_sink (SinkSet (dv_name d) (dv_value d))) dims w =
    (Ok tt,
     {| charts := charts w;
        sink := sink w ++ map (fun d => SinkSet (dv_name d) (dv_value d)) dims;
        services := services w; log := log w |}).
Proof.
  revert w. induction dims as [|d dims IH]; intros w; simpl.
  - unfold ret. rewrite app_nil_r. by destruct w.
  - unfold bind, call_sink. rewrite IH. simpl. by rewrite <- app_assoc.
Qed.

Lemma for_each_emit charts0 w :
  for_each emit charts0 w =
    (Ok tt,
     {| charts := charts w; sink := sink w ++ flat_map frame charts0;
        services := services w; log := log w |}).
Proof.
  revert w. induction charts0 as [|c charts0 IH]; intros w; simpl.
  - unfold ret. rewrite app_nil_r. by destruct w.
  - unfold bind at 1. unfold emit at 1. unfold bind, call_sink.
    rewrite for_each_set. simpl. rewrite IH. simpl.
    unfold frame. by rewrite <- !app_assoc.
Qed.

Lemma processResponse_samples service content w r w' :
  processResponse service content w = (r, w') ->
  exists charts0,
    samples (sink w') = (samples (sink w) ++ flat_map frame charts0)%list /\
    (forall e, r = Throw e -> charts0 = []).
Proof.
  set (P0 := fun w' : world => samples (sink w') = samples (sink w)).
  assert (Hlog : forall l, preserves P0 (netdata_log l)).
  { intros l w1 H. exact H. }
  assert (Hget : forall kind, preserves P0 (getOrCreateChart service kind)).
  { intros kind w1 H. unfold P0 in *.
    destruct (getOrCreateChart_unfold service kind) as (c & -> & _).
    destruct (isDefined (cached w1 (getChartId service (chart_suffix kind))))
      eqn:Hhit.
    - by rewrite get_or_create_hit.
    - rewrite get_or_create_miss by assumption. simpl.
      rewrite samples_app. simpl. by rewrite app_nil_r. }
  pose proof (convertToJson_preserves P0 Hlog content w eq_refl) as Hc.
  unfold processResponse, bind.
  destruct (convertToJson content w) as [[stats|e] w0]; simpl in Hc.
  - destruct (strict_eq_null stats).
    + intros [= <- <-]. exists []. rewrite app_nil_r.
      split; [exact Hc | reflexivity].
    + unfold call_sink at 1. cbv beta iota.
      match goal with
      | |- context [parseCharts service stats ?w1] =>
          pose proof (parseCharts_preserves P0 service Hget stats w1) as Hp;
          destruct (parseCharts service stats w1) as [[charts0|e] w2]
      end; simpl in Hp; unfold P0 in Hp; simpl in Hp;
        rewrite samples_app in Hp; simpl in Hp; rewrite app_nil_r in Hp;
        specialize (Hp Hc).
      * rewrite for_each_emit. intros [= <- <-]. simpl. exists charts0.
        rewrite samples_app, samples_frames, Hp. split; [reflexivity|].
        intros e He. discriminate He.
      * intros [= <- <-]. exists []. rewrite app_nil_r.
        split; [exact Hp | reflexivity].
  - intros [= <- <-]. exists []. rewrite app_nil_r.
    split; [exact Hc | reflexivity].
Qed.

(** X16: over any run of cycles the sample calls received by the sink are a
    sequence of whole frames, each a begin, the sets of one chart and an
    end: no frame is left open, no set falls outside a frame. *)
Theorem samples_are_whole_frames cycles :
  exists charts0,
    samples (sink (run cycles init)) = flat_map frame charts0.
Proof.
  assert (H : forall w,
    (exists cs, samples (sink w) = flat_map frame cs) ->
    exists cs, samples (sink (run cycles w)) = flat_map frame cs).
  { induction cycles as [|[service content] cycles IH]; intros w Hw; simpl;
      [assumption|].
    apply IH. destruct Hw as [cs Hcs].
    destruct (processResponse service content w) as [r w'] eqn:Hrun.
    destruct (processResponse_samples _ _ _ _ _ Hrun) as (cs' & Hs & _).
    exists (cs ++ cs')%list. simpl. rewrite Hs, Hcs. by rewrite flat_map_app. }
  apply H. exists []. reflexivity.
Qed.

(** X17: a cycle in which [processResponse] throws submits no sample at
    all: what it may leave behind is the commit and the registrations of
    the charts met before the throw. *)
Theorem processResponse_throw_submits_nothing service content w e :
  fst (processResponse service content w) = Throw e ->
  samples (sink (snd (processResponse service content w))) = samples (sink w).
Proof.
  destruct (processResponse service content w) as [r w'] eqn:Hrun.
  simpl. intros ->.
  destruct (processResponse_samples _ _ _ _ _ Hrun) as (cs & Hs & Hnone).
  rewrite Hs, (Hnone e eq_refl). apply app_nil_r.
Qed.

(** ** Streams outside the data model *)

Lemma ToNumber_returns v :
  unconvertible v = false -> exists n, ToNumber v = Ok n.
Proof.
  intros Hv. destruct v as [| |[]| | | | | |]; simpl in *;
    rewrite ?Hv; eauto.
Qed.

Lemma ToNumber_throws v :
  unconvertible v = true -> exists e, ToNumber v = Throw e.
Proof.
  intros Hv. destruct v; simpl in *; try discriminate Hv; rewrite ?Hv; eauto.
Qed.

Lemma number_sub_NaN_l y : number_sub NaN y = NaN.
Proof. reflexivity. Qed.

Lemma number_sub_NaN_r x : number_sub x NaN = NaN.
Proof. unfold number_sub. simpl. by destruct (canonical x). Qed.

Lemma items_key_differ a b : a +:+ ".items" <> b +:+ ".key".
Proof. intros H. symmetry in H. by apply key_items_differ in H. Qed.

(** X18: the test on [subscribed] is truthiness.  A stream object whose
    [subscribed] is falsy or absent adds nothing and leaves the cache as it
    is; one whose [subscribed] is truthy (true, but also a non-zero number
    or a non-empty string), with a string name and integer counts from 0
    to 2^53 on a service with a string name, adds its items chart with
    confirmed and unconfirmed = items - confirmed and then its keys
    chart, each with the chart object the cache holds under its id. *)
Theorem subscription_test_is_truthiness :
  (forall service props charts0 w,
     ToBoolean (assoc "subscribed" props) = false ->
     parseCharts_stream service (VObj props) charts0 w = (Ok charts0, w)) /\
  (forall service node props sname items confirmed charts0 w,
     name service = VStr node ->
     assoc "name" props = VStr sname ->
     assoc "items" props = VNum (Int items) ->
     assoc "confirmed" props = VNum (Int confirmed) ->
     is_count items -> is_count confirmed ->
     ToBoolean (assoc "subscribed" props) = true ->
     exists w',
       parseCharts_stream service (VObj props) charts0 w =
         (Ok (charts0 ++
              [ {| cv_chart :=
                     cached w' (node +:+ ".stream." +:+ sname +:+ ".items");
                   cv_dimensions :=
                     [ {| dv_name := "confirmed";
                          dv_value := VNum (Int confirmed) |};
                       {| dv_name := "unconfirmed";
                          dv_value := VNum (Int (items - confirmed)) |} ] |};
                {| cv_chart :=
                     cached w' (node +:+ ".stream." +:+ sname +:+ ".key");
                   cv_dimensions :=
                     [ {| dv_name := "keys";
                          dv_value := assoc "keys" props |} ] |} ])%list,
          w')).
Proof.
  split.
  - intros service props charts0 w Hfalsy. unfold parseCharts_stream.
    change (get (VObj props) "subscribed") with (Ok (assoc "subscribed" props)).
    unfold bind at 1. unfold lift. by rewrite Hfalsy.
  - intros service node props sname items confirmed charts0 w Hname Hsname
      Hitems Hconfirmed Hi Hc Htruthy.
    unfold is_count in Hi, Hc. unfold parseCharts_stream.
    change (get (VObj props) "subscribed") with (Ok (assoc "subscribed" props)).
    unfold bind at 1. unfold lift. rewrite Htruthy.
    destruct (parseStreamItemsChart_converted service node props sname
                (Int items) (Int confirmed) w Hname Hsname)
      as (w1 & H1 & _).
    { by rewrite Hitems. }
    { by rewrite Hconfirmed. }
    destruct (parseStreamKeysChart_pinned service node props sname w1
                Hname Hsname) as (w2 & H2 & Hframe).
    unfold bind at 1. rewrite H1. cbv beta iota.
    unfold bind at 1. rewrite H2. cbv beta iota.
    exists w2. unfold ret.
    rewrite (Hframe (node +:+ ".stream." +:+ sname +:+ ".items")).
    + rewrite Hconfirmed, number_sub_exact by lia. reflexivity.
    + intros Hid. apply String.app_inj in Hid. apply String.app_inj in Hid.
      by apply items_key_differ in Hid.
Qed.

(** X19: a stream entry without [items], or without [confirmed], does not
    stop the mapper.  When the entry and the service have string names and
    the other count converts to a number, the unconfirmed dimension of the
    items chart is NaN, next to confirmed as the entry has it. *)
Theorem unconfirmed_is_NaN_without_counts service node props sname w :
  name service = VStr node ->
  assoc "name" props = VStr sname ->
  (assoc "items" props = VUndefined /\
   unconvertible (assoc "confirmed" props) = false) \/
  (assoc "confirmed" props = VUndefined /\
   unconvertible (assoc "items" props) = false) ->
  exists w',
    parseStreamItemsChart service (VObj props) w =
      (Ok {| cv_chart := cached w' (node +:+ ".stream." +:+ sname +:+ ".items");
             cv_dimensions :=
               [ {| dv_name := "confirmed";
                    dv_value := assoc "confirmed" props |};
                 {| dv_name := "unconfirmed"; dv_value := VNum NaN |} ] |},
       w').
Proof.
  intros Hname Hsname [[Hmissing Hother] | [Hmissing Hother]];
    destruct (ToNumber_returns _ Hother) as [n Hn].
  - destruct (parseStreamItemsChart_converted service node props sname
                NaN n w Hname Hsname) as (w' & Hparse & _);
      [by rewrite Hmissing | exact Hn |].
    exists w'. by rewrite Hparse, number_sub_NaN_l.
  - destruct (parseStreamItemsChart_converted service node props sname
                n NaN w Hname Hsname) as (w' & Hparse & _);
      [exact Hn | by rewrite Hmissing |].
    exists w'. by rewrite Hparse, number_sub_NaN_r.
Qed.

(** ** Chart ids across nodes *)

Lemma string_app_assoc a b c : (a +:+ b) +:+ c = a +:+ (b +:+ c).
Proof.
  induction a as [|x a IH]; [reflexivity|].
  change (String x ((a +:+ b) +:+ c) = String x (a +:+ (b +:+ c))).
  by rewrite IH.
Qed.

Lemma string_app_nil_r a : a +:+ "" = a.
Proof.
  induction a as [|x a IH]; [reflexivity|].
  change (String x (a +:+ "") = String x a). by rewrite IH.
Qed.

(** X20: ids are not kept apart across nodes.  The keys chart of stream
    [b.stream.c] on node [a] and the keys chart of stream [c] on node
    [a.stream.b] have one id, for all [a], [b] and [c]; once the first is
    cached, the second node is handed the first node's chart object and
    registers nothing. *)
Theorem chart_ids_shared_across_nodes (a b c : string) service1 service2 :
  name service1 = VStr a ->
  name service2 = VStr (a +:+ ".stream." +:+ b) ->
  let kind1 := StreamKeys (VStr (b +:+ ".stream." +:+ c)) in
  let kind2 := StreamKeys (VStr c) in
  name service1 <> name service2 /\
  getChartId service1 (chart_suffix kind1)
    = getChartId service2 (chart_suffix kind2) /\
  forall w chart w',
    getOrCreateChart service1 kind1 w = (Ok chart, w') ->
    chart <> VUndefined ->
    getOrCreateChart service2 kind2 w' = (Ok chart, w').
Proof.
  intros Hn1 Hn2 kind1 kind2.
  assert (Hid : getChartId service1 (chart_suffix kind1)
                = getChartId service2 (chart_suffix kind2)).
  { unfold getChartId, kind1, kind2. rewrite Hn1, Hn2. simpl.
    rewrite !string_app_assoc. reflexivity. }
  split; [|split; [exact Hid|]].
  - rewrite Hn1, Hn2. intros [= H].
    rewrite <- (string_app_nil_r a) in H at 1.
    apply String.app_inj in H. discriminate H.
  - intros w chart w' Hfirst Hdefined.
    destruct (getOrCreateChart_returns service1 kind1 w)
      as (chart1 & w1 & Hget & Hcached).
    rewrite Hget in Hfirst. injection Hfirst as <- <-.
    destruct (getOrCreateChart_unfold service2 kind2) as (c2 & -> & _).
    rewrite <- Hid. rewrite get_or_create_hit; rewrite Hcached;
      [reflexivity | by apply isDefined_spec].
Qed.

(** ** Where the mapper is defined *)

Lemma get_field s k : is_nullish s = false -> get s k = Ok (field s k).
Proof.
  intros Hs. unfold field. destruct (get s k) eqn:Hget; [reflexivity|].
  destruct s; simpl in *; try discriminate;
    repeat match goal with
           | H : context [String.eqb ?a ?b] |- _ => destruct (String.eqb a b)
           end; discriminate.
Qed.

Lemma get_nullish s k : is_nullish s = true -> exists e, get s k = Throw e.
Proof. destruct s; try discriminate; simpl; eauto. Qed.

Lemma table_dimensions_returns table s :
  is_nullish s = false -> exists dims, table_dimensions table s = Ok dims.
Proof.
  intros Hs. unfold table_dimensions.
  induction table as [|entry table [dims IH]]; simpl; [eauto|].
  rewrite (get_field _ _ Hs), IH. eauto.
Qed.

Lemma js_sub_returns a b :
  unconvertible a = false -> unconvertible b = false ->
  exists v, js_sub a b = Ok v.
Proof.
  intros [x Hx]%ToNumber_returns [y Hy]%ToNumber_returns.
  unfold js_sub. rewrite Hx, Hy. eauto.
Qed.

Lemma js_sub_throws a b :
  unconvertible a && negb (unconvertible b) || unconvertible b = true ->
  exists e, js_sub a b = Throw e.
Proof.
  unfold js_sub. destruct (unconvertible a) eqn:Ha.
  - destruct (ToNumber_throws _ Ha) as [e ->]. eauto.
  - destruct (ToNumber_returns _ Ha) as [x ->]. simpl. intros Hb.
    destruct (ToNumber_throws _ Hb) as [e ->]. eauto.
Qed.

Lemma parseCharts_stream_returns service s charts0 w :
  mappable s = true ->
  exists charts1 w', parseCharts_stream service s charts0 w = (Ok charts1, w').
Proof.
  unfold mappable. intros [Hs Hcounts]%andb_true_iff.
  apply negb_true_iff in Hs.
  unfold parseCharts_stream, parseStreamItemsChart, parseStreamKeysChart.
  rewrite !(get_field _ _ Hs). unfold bind at 1. unfold lift.
  destruct (ToBoolean (field s "subscribed")); [|unfold ret; eauto].
  simpl in Hcounts. apply andb_true_iff in Hcounts as [Hi Hc].
  apply negb_true_iff in Hi, Hc.
  destruct (js_sub_returns _ _ Hi Hc) as [u Hu].
  destruct (getOrCreateChart_returns service (StreamItems (field s "name")) w)
    as (c1 & w1 & H1 & _).
  destruct (getOrCreateChart_returns service (StreamKeys (field s "name")) w1)
    as (c2 & w2 & H2 & _).
  destruct (table_dimensions_returns dimensions_stream_keys s Hs) as [dims Hd].
  simpl in H1, H2. unfold bind, ret. rewrite H1, Hu, H2, Hd. eauto.
Qed.

Lemma parseCharts_stream_throws service s charts0 w :
  mappable s = false ->
  exists e w', parseCharts_stream service s charts0 w = (Throw e, w').
Proof.
  unfold mappable. destruct (is_nullish s) eqn:Hs.
  - intros _. destruct (get_nullish s "subscribed" Hs) as [e He].
    exists e, w. unfold parseCharts_stream, bind, lift. by rewrite He.
  - simpl. intros Hcounts.
    unfold parseCharts_stream, parseStreamItemsChart.
    rewrite !(get_field _ _ Hs). unfold bind at 1. unfold lift.
    destruct (ToBoolean (field s "subscribed")); [|discriminate Hcounts].
    simpl in Hcounts.
    destruct (js_sub_throws (field s "items") (field s "confirmed"))
      as [e He].
    { destruct (unconvertible (field s "items")),
        (unconvertible (field s "confirmed")); done. }
    destruct (getOrCreateChart_returns service (StreamItems (field s "name")) w)
      as (c1 & w1 & H1 & _).
    simpl in H1. unfold bind. rewrite H1, He. eauto.
Qed.

Lemma parseCharts_streams_return service streams :
  forall charts0 w,
    (exists charts1 w',
       forEach_list (parseCharts_stream service) streams charts0 w
         = (Ok charts1, w')) <->
    Forall (fun s => mappable s = true) streams.
Proof.
  induction streams as [|s streams IH]; intros charts0 w; simpl.
  - split; [constructor | unfold ret; eauto].
  - unfold bind. destruct (mappable s) eqn:Hs.
    + destruct (parseCharts_stream_returns service s charts0 w Hs)
        as (charts1 & w1 & ->).
      rewrite IH. split; [by constructor | by inversion 1].
    + destruct (parseCharts_stream_throws service s charts0 w Hs)
        as (e & w1 & ->).
      split.
      * intros (charts1 & w' & [=]).
      * intros H. inversion H. congruence.
Qed.

Lemma parseCharts_returns service stats w :
  (exists charts0 w', parseCharts service stats w = (Ok charts0, w')) <->
  (exists streams,
     get stats "streams" = Ok (VArr streams) /\
     Forall (fun s => mappable s = true) streams).
Proof.
  unfold parseCharts. unfold bind at 1. unfold lift. split.
  - intros (charts0 & w' & Hrun).
    destruct (get stats "streams") as [v|e]; [|discriminate Hrun].
    destruct v as [| | | | |streams| | |]; try discriminate Hrun.
    exists streams. split; [reflexivity|].
    apply (parseCharts_streams_return service streams [] w).
    unfold bind at 1 in Hrun. cbn [forEach] in Hrun.
    destruct (forEach_list _ streams [] w) as [[charts1|e] w1];
      [eauto | discriminate Hrun].
  - intros (streams & Hstreams & Hall). rewrite Hstreams. cbn [forEach].
    assert (Hs : is_nullish stats = false).
    { destruct stats; try reflexivity; discriminate Hstreams. }
    apply (parseCharts_streams_return service streams [] w) in Hall
      as (charts1 & w1 & Hrun).
    unfold bind at 1. rewrite Hrun.
    unfold parseBlocksSizeChart, parseBlocksMemoryChart, parseBlocksChart,
      parseConnectionsChart.
    destruct (getOrCreateChart_returns service BlocksSize w1)
      as (c1 & w2 & H1 & _).
    destruct (getOrCreateChart_returns service BlocksMemory w2)
      as (c2 & w3 & H2 & _).
    destruct (getOrCreateChart_returns service Blocks w3)
      as (c3 & w4 & H3 & _).
    destruct (getOrCreateChart_returns service Connections w4)
      as (c4 & w5 & H4 & _).
    destruct (table_dimensions_returns dimensions_blocksSize stats Hs)
      as [d1 Hd1].
    destruct (table_dimensions_returns dimensions_blocksMemory stats Hs)
      as [d2 Hd2].
    destruct (table_dimensions_returns dimensions_blocks stats Hs)
      as [d3 Hd3].
    destruct (table_dimensions_returns dimensions_connections stats Hs)
      as [d4 Hd4].
    simpl in H1, H2, H3, H4. unfold bind, lift, ret.
    rewrite H1, Hd1, H2, Hd2, H3, Hd3, H4, Hd4. eauto.
Qed.

(** X21: where [parseCharts] returns rather than throws.  If it returns,
    [streams] is an array, none of its entries is null or undefined, and
    the items and confirmed of every entry with a truthy [subscribed]
    convert to numbers.  Conversely it returns on every such snapshot
    when, besides, the name of the service and the names of the charted
    streams convert to strings.  Blocks, connections and the mempool
    fields play no part in either direction. *)
Theorem parseCharts_domain service stats w :
  ((exists charts0 w', parseCharts service stats w = (Ok charts0, w')) ->
   exists streams,
     get stats "streams" = Ok (VArr streams) /\
     Forall (fun s => mappable s = true) streams) /\
  (forall streams,
     get stats "streams" = Ok (VArr streams) ->
     Forall (fun s => mappable s = true) streams ->
     Forall (fun s => named s = true) streams ->
     unconvertible (name service) = false ->
     exists charts0 w', parseCharts service stats w = (Ok charts0, w')).
Proof.
  split.
  - apply parseCharts_returns.
  - intros streams Hstreams Hall _ _. apply parseCharts_returns. eauto.
Qed.

End Runtime.

(** * The statements on the sample runtime *)

Lemma sample_service_chart_defined id c :
  isDefined (sample_service_chart id c) = true.
Proof. reflexivity. Qed.

(** The sample network fails the second call: the callback gets null after
    two requests. *)
Lemma process_failure_passes_null_witness :
  (getinfo_succeeds sample_JSON_parse sample_http_request sample_service
     && getmempoolinfo_succeeds sample_JSON_parse sample_http_request sample_service
     && liststreams_succeeds sample_JSON_parse sample_http_request sample_service
   = false) /\
  let c := snd (process sample_JSON_parse sample_http_request sample_service
                  (fun _ => Ok VUndefined) start) in
  called_back c = [VNull] /\
  posted c = [ rpc "getinfo" (VStr "c"); rpc "getmempoolinfo" (VStr "c") ].
Proof.
  split; [reflexivity|].
  apply (process_failure_passes_null sample_JSON_parse sample_http_request
           sample_service (fun _ => Ok VUndefined)).
  reflexivity.
Defined.

(** A snapshot without connections is dropped. *)
Lemma processResponse_skips_invalid_witness :
  processResponse sample_StringToNumber sample_JSON_parse sample_service_chart
    sample_service (VObj [("blocks", VNum (Int 100))]) init
  = (Ok tt, init).
Proof.
  apply (processResponse_skips_invalid sample_StringToNumber sample_JSON_parse
           sample_service_chart sample_service
           (VObj [("blocks", VNum (Int 100))]) init).
  right. exists (VObj [("blocks", VNum (Int 100))]).
  split; [left; split; reflexivity | right; reflexivity].
Defined.




Lemma unconfirmed_is_items_minus_confirmed_witness :
  exists w' unconfirmed,
    parseStreamItemsChart sample_StringToNumber sample_service_chart
      sample_service
      (VObj [ ("name", VStr "s1"); ("items", VNum (Int 10));
              ("confirmed", VNum (Int 7)) ]) init =
      (Ok {| cv_chart := cached w' ("n1" +:+ ".stream." +:+ "s1" +:+ ".items");
             cv_dimensions :=
               [ {| dv_name := "confirmed"; dv_value := VNum (Int 7) |};
                 {| dv_name := "unconfirmed";
                    dv_value := VNum (Int unconfirmed) |} ] |},
       w') /\
    unconfirmed = (10 - 7)%Z /\
    (0 <= unconfirmed)%Z.
Proof.
  apply (proj1 (unconfirmed_is_items_minus_confirmed sample_StringToNumber
                  sample_service_chart) sample_service "n1"
           [ ("name", VStr "s1"); ("items", VNum (Int 10));
             ("confirmed", VNum (Int 7)) ] "s1" 10%Z 7%Z init).
  - reflexivity.
  - reflexivity.
  - reflexivity.
  - reflexivity.
  - lia.
  - lia.
Defined.

(** Above 2^53 the difference of two doubles is rounded: for items 2^54
    and confirmed 1 the unconfirmed dimension is 2^54, not 2^54 - 1. *)
Lemma unconfirmed_rounds_above_2_53 :
  (0 <= 1 <= 18014398509481984)%Z /\
  exists w',
    parseStreamItemsChart sample_StringToNumber sample_service_chart
      sample_service
      (VObj [ ("name", VStr "s1"); ("items", VNum (Int 18014398509481984));
              ("confirmed", VNum (Int 1)) ]) init =
      (Ok {| cv_chart := cached w' "n1.stream.s1.items";
             cv_dimensions :=
               [ {| dv_name := "confirmed"; dv_value := VNum (Int 1) |};
                 {| dv_name := "unconfirmed";
                    dv_value := VNum (Int 18014398509481984) |} ] |},
       w') /\
    (18014398509481984 <> 18014398509481984 - 1)%Z.
Proof.
  split; [lia|].
  destruct (parseStreamItemsChart_converted sample_StringToNumber
              sample_service_chart sample_service "n1"
              [ ("name", VStr "s1"); ("items", VNum (Int 18014398509481984));
                ("confirmed", VNum (Int 1)) ] "s1"
              (Int 18014398509481984) (Int 1) init)
    as (w' & Hrun & _); try reflexivity.
  exists w'. split; [exact Hrun | lia].
Qed.

Lemma chart_ids_distinct_witness :
  NoDup (map (fun kind => getChartId sample_service (chart_suffix kind))
           [ BlocksSize; BlocksMemory; Blocks; Connections;
             StreamItems (VStr "s1"); StreamKeys (VStr "s1");
             StreamItems (VStr "s2"); StreamKeys (VStr "s2") ]).
Proof.
  apply (chart_ids_distinct sample_service_chart sample_service "s1" "s2").
  discriminate.
Defined.

(** The three replies of the sample network: a 200 resolves, a 500 rejects
    with the response, a refused connection rejects with -1. *)
Lemma post_settles_witness :
  (exists response,
     post sample_JSON_parse sample_http_request (VObj [])
       (rpc "getinfo" (VStr "c")) = Resolved response) /\
  post sample_JSON_parse sample_http_request (VObj [])
    (rpc "getmempoolinfo" (VStr "c")) =
    Rejected
      (VObj [ ("statusCode", VNum (Int 500));
              ("statusMessage", VStr "Internal Server Error");
              ("headers", VObj []);
              ("body", VObj [("error", VErr "SyntaxError" "Unexpected token")]) ]) /\
  (exists response,
     post sample_JSON_parse sample_http_request (VObj [])
       (rpc "liststreams" (VStr "c")) = Rejected response /\
     get response "statusCode" = Ok (VNum (Int (-1))) /\
     get response "body"
       = Ok (VObj [("error", VErr "Error" "connect ECONNREFUSED")])).
Proof.
  split; [|split].
  - apply (proj1 (post_settles sample_JSON_parse sample_http_request (VObj [])
                    (rpc "getinfo" (VStr "c")))).
    exists 200%Z, (VStr "OK"), (VObj []), ["<getinfo"; " reply>"].
    split; [reflexivity | unfold is_2xx; lia].
  - apply (proj1 (proj2 (proj2 (post_settles sample_JSON_parse
                    sample_http_request (VObj [])
                    (rpc "getmempoolinfo" (VStr "c")))))
             500%Z (VStr "Internal Server Error") (VObj []) []).
    + reflexivity.
    + unfold is_2xx. lia.
  - apply (proj2 (proj2 (proj2 (post_settles sample_JSON_parse
                    sample_http_request (VObj [])
                    (rpc "liststreams" (VStr "c")))))).
    reflexivity.
Defined.

(** The example of the specification, evaluated: the dimension values in
    the order the mapper returns them, the ids registered on the way, and a
    second cycle that registers nothing. *)
Example sample_cycle_values :
  match fst (parseCharts sample_StringToNumber sample_service_chart
               sample_service sample_snapshot init) with
  | Ok charts => map (fun c => map (fun d => (dv_name d, dv_value d))
                                (cv_dimensions c)) charts
  | Throw _ => []
  end =
  [ [("confirmed", VNum (Int 7)); ("unconfirmed", VNum (Int 3))];
    [("keys", VNum (Int 3))];
    [("memSize", VNum (Int 2))];
    [("memBytes", VNum (Int 512))];
    [("blocks", VNum (Int 100))];
    [("connections", VNum (Int 5))] ].
Proof. vm_compute. reflexivity. Qed.

Example sample_cycle_registrations :
  registered (sink (run sample_StringToNumber sample_JSON_parse
                      sample_service_chart
                      [(sample_service, sample_snapshot);
                       (sample_service, sample_snapshot)] init)) =
  [ "n1.stream.s1.items"; "n1.stream.s1.key"; "n1.blocks.size";
    "n1.blocks.memory"; "n1.blocks.count"; "n1.connections.count" ].
Proof. vm_compute. reflexivity. Qed.

(** The three replies of the sample network, through [post]. *)
Example sample_post_outcomes :
  map (fun method =>
         match post sample_JSON_parse sample_http_request (VObj [])
                 (rpc method (VStr "c")) with
         | Resolved r => (true, get r "statusCode")
         | Rejected r => (false, get r "statusCode")
         end)
      ["getinfo"; "getmempoolinfo"; "liststreams"] =
  [ (true, Ok (VNum (Int 200))); (false, Ok (VNum (Int 500)));
    (false, Ok (VNum (Int (-1)))) ].
Proof. vm_compute. reflexivity. Qed.

(** * The further statements on the sample runtime *)


Lemma configure_throws_on_non_array_witness :
  exists e,
    configure (VNum (Int 5)) (VObj [("servers", VNull)]) init = (Throw e, init).
Proof.
  apply (configure_throws_on_non_array (VNum (Int 5))
           (VObj [("servers", VNull)]) VNull init).
  - reflexivity.
  - discriminate.
  - discriminate.
Defined.


Lemma process_delivers_snapshot_witness :
  let c := snd (process sample_JSON_parse_up sample_http_request_up
                  sample_service (fun _ => Ok VUndefined) start) in
  posted c = the_requests sample_service /\
  data c = sample_snapshot /\
  called_back c = [sample_snapshot] /\
  debugged c = [].
Proof.
  eapply (process_delivers_snapshot sample_JSON_parse_up sample_http_request_up
            sample_service (fun _ => Ok VUndefined)); reflexivity.
Defined.

Lemma unparsable_reply_ends_cycle_witness :
  let c := snd (process sample_JSON_parse sample_http_request_page
                  sample_service (fun _ => Ok VUndefined) start) in
  called_back c = [VNull] /\
  posted c = [rpc "getinfo" (VStr "c")] /\
  (is_2xx 200 ->
   exists msg, debugged c = [TypeError msg] /\
               getinfo_succeeds sample_JSON_parse sample_http_request_page
                 sample_service = false).
Proof.
  apply (unparsable_reply_ends_cycle sample_JSON_parse sample_http_request_page
           sample_service (fun _ => Ok VUndefined) 200%Z (VStr "OK") (VObj [])
           ["<html>"; "</html>"] (VErr "SyntaxError" "Unexpected token"));
    reflexivity.
Defined.

Lemma convertToJson_sound_witness :
  charts init = charts init /\ sink init = sink init /\
  services init = services init /\
  (sample_snapshot = VNull \/
   (init = init /\ parsed sample_JSON_parse sample_snapshot sample_snapshot /\
    isResponseValid sample_snapshot = Ok true)).
Proof.
  apply (convertToJson_sound sample_JSON_parse sample_snapshot init
           sample_snapshot init).
  reflexivity.
Defined.

Lemma processResponse_ignores_invalid_json_witness :
  processResponse sample_StringToNumber sample_JSON_parse sample_service_chart
    sample_service (VStr "<html>") init =
    (Ok tt,
     {| charts := ∅; sink := []; services := [];
        log := [LogError
          "multichain: Got a response, but it is not valid JSON. Ignoring. Error: Unexpected token"] |}).
Proof.
  apply (processResponse_ignores_invalid_json sample_StringToNumber
           sample_JSON_parse sample_service_chart sample_service
           (VStr "<html>") (VErr "SyntaxError" "Unexpected token")
           (VStr "Unexpected token") init).
  - discriminate.
  - reflexivity.
  - reflexivity.
Defined.

Lemma processResponse_throws_on_null_json_witness :
  exists e,
    convertToJson sample_JSON_parse (VStr "null") init = (Throw e, init) /\
    processResponse sample_StringToNumber sample_JSON_parse
      sample_service_chart sample_service (VStr "null") init = (Throw e, init).
Proof.
  apply (processResponse_throws_on_null_json sample_StringToNumber
           sample_JSON_parse sample_service_chart sample_service
           (VStr "null") init).
  - discriminate.
  - reflexivity.
Defined.

Lemma cache_never_overwritten_witness :
  let w := snd (processResponse sample_StringToNumber sample_JSON_parse
                  sample_service_chart sample_service sample_snapshot init) in
  cached (run sample_StringToNumber sample_JSON_parse sample_service_chart
            [(sample_service, sample_snapshot); (sample_service, VNull)] w)
         "n1.blocks.size"
  = cached w "n1.blocks.size".
Proof.
  apply (cache_never_overwritten sample_StringToNumber sample_JSON_parse
           sample_service_chart).
  vm_compute. reflexivity.
Defined.

Lemma processResponse_throw_submits_nothing_witness :
  samples (sink (snd (processResponse sample_StringToNumber sample_JSON_parse
                        sample_service_chart sample_service
                        (VObj [ ("blocks", VNum (Int 100));
                                ("connections", VNum (Int 5)) ]) init)))
  = samples (sink init).
Proof.
  apply (processResponse_throw_submits_nothing sample_StringToNumber
           sample_JSON_parse sample_service_chart sample_service
           (VObj [ ("blocks", VNum (Int 100)); ("connections", VNum (Int 5)) ])
           init (TypeError "Cannot read property 'forEach' of undefined")).
  reflexivity.
Defined.

Lemma subscription_test_is_truthiness_witness :
  exists w',
    parseCharts_stream sample_StringToNumber sample_service_chart
      sample_service
      (VObj [ ("name", VStr "s1"); ("subscribed", VNum (Int 1));
              ("items", VNum (Int 10)); ("confirmed", VNum (Int 7));
              ("keys", VNum (Int 3)) ]) [] init =
      (Ok [ {| cv_chart := cached w' "n1.stream.s1.items";
               cv_dimensions :=
                 [ {| dv_name := "confirmed"; dv_value := VNum (Int 7) |};
                   {| dv_name := "unconfirmed";
                      dv_value := VNum (Int 3) |} ] |};
            {| cv_chart := cached w' "n1.stream.s1.key";
               cv_dimensions :=
                 [ {| dv_name := "keys"; dv_value := VNum (Int 3) |} ] |} ],
       w').
Proof.
  apply (proj2 (subscription_test_is_truthiness sample_StringToNumber
                  sample_service_chart) sample_service "n1"
           [ ("name", VStr "s1"); ("subscribed", VNum (Int 1));
             ("items", VNum (Int 10)); ("confirmed", VNum (Int 7));
             ("keys", VNum (Int 3)) ] "s1" 10%Z 7%Z [] init).
  - reflexivity.
  - reflexivity.
  - reflexivity.
  - reflexivity.
  - unfold is_count. lia.
  - unfold is_count. lia.
  - reflexivity.
Defined.

Lemma unconfirmed_is_NaN_without_counts_witness :
  exists w',
    parseStreamItemsChart sample_StringToNumber sample_service_chart
      sample_service
      (VObj [("name", VStr "s1"); ("confirmed", VNum (Int 7))]) init =
      (Ok {| cv_chart := cached w' "n1.stream.s1.items";
             cv_dimensions :=
               [ {| dv_name := "confirmed"; dv_value := VNum (Int 7) |};
                 {| dv_name := "unconfirmed"; dv_value := VNum NaN |} ] |},
       w').
Proof.
  apply (unconfirmed_is_NaN_without_counts sample_StringToNumber
           sample_service_chart sample_service "n1"
           [("name", VStr "s1"); ("confirmed", VNum (Int 7))] "s1" init).
  - reflexivity.
  - reflexivity.
  - left. split; reflexivity.
Defined.

Lemma parseCharts_domain_witness :
  exists charts w',
    parseCharts sample_StringToNumber sample_service_chart sample_service
      sample_snapshot init = (Ok charts, w').
Proof.
  apply (proj2 (parseCharts_domain sample_StringToNumber sample_service_chart
                  sample_service sample_snapshot init) sample_streams).
  - reflexivity.
  - repeat constructor.
  - repeat constructor.
  - reflexivity.
Defined.

Lemma chart_ids_shared_across_nodes_witness :
  getChartId sample_service (chart_suffix (StreamKeys (VStr "s1.stream.s2")))
  = getChartId
      {| name := VStr "n1.stream.s1"; update_every := VNum (Int 5);
         hostname := VStr "h"; port := VNum (Int 1);
         username := VStr "u"; password := VStr "p"; chain := VStr "c" |}
      (chart_suffix (StreamKeys (VStr "s2"))).
Proof.
  apply (chart_ids_shared_across_nodes sample_service_chart "n1" "s1" "s2"
           sample_service
           {| name := VStr "n1.stream.s1"; update_every := VNum (Int 5);
              hostname := VStr "h"; port := VNum (Int 1);
              username := VStr "u"; password := VStr "p"; chain := VStr "c" |});
    reflexivity.
Defined.
